(** * Token lifecycle of the KMRL fleet-management front end

    A shallow embedding of [src/services/auth.ts] (class [AuthService]),
    of the [ApiClient] wrapper and of the [useAuthInterceptor] hook,
    together with the properties of the token lifecycle that the
    specification states about them.

    Conventions of the embedding:
    - [localStorage] is a finite map from keys to strings
      ([gmap string string]); [getItem] is lookup ([None] is JavaScript's
      [null]), [setItem] is insert, [removeItem] is delete;
    - a value of type [string | null] is an [option string]; it is truthy
      when it is [Some] of a non-empty string;
    - an [async] method is a computation in the monad [M]: it threads the
      [World] (storage, the requests sent so far, the console, the page
      location) and either completes normally or throws; one call runs
      without other tasks interleaved at its [await]s;
    - [new Date()] read during one call is the instant [now], in
      milliseconds since the epoch; [new Date(s)] is [Date_parse s], with
      [None] for an Invalid Date (time value NaN);
    - the server is a function from the requests seen so far and the
      request at hand to a response, [None] being a network failure. *)

From Stdlib Require Import ZArith String Ascii List Bool Lia.
From stdpp Require Import base option gmap strings pretty.

Local Open Scope string_scope.
Local Open Scope Z_scope.

(** ** JavaScript values *)

(** Truthiness of a [string | null]: [null] and the empty string are falsy. *)
Definition truthy (v : option string) : bool :=
  match v with
  | Some s => negb (String.eqb s "")
  | None => false
  end.

(** The part of the [Date] built-in that the code uses. *)
Class JSDate := {
  Date_parse : string -> option Z;
  Date_parse_empty : Date_parse "" = None
}.

(** ** localStorage *)

Module Storage.
Definition getItem (key : string) (ls : gmap string string) : option string :=
  ls !! key.
Definition setItem (key value : string) (ls : gmap string string)
  : gmap string string := <[key := value]> ls.
Definition removeItem (key : string) (ls : gmap string string)
  : gmap string string := delete key ls.
End Storage.

Definition ACCESS_TOKEN : string := "kmrl-access-token".
Definition REFRESH_TOKEN : string := "kmrl-refresh-token".
Definition ACCESS_EXPIRES_AT : string := "kmrl-access-expires-at".
Definition REFRESH_EXPIRES_AT : string := "kmrl-refresh-expires-at".
Definition USER_DATA : string := "kmrl-user-data".

(** ** HTTP *)

(** A call of [fetch].  [body] is the object handed to [JSON.stringify],
    as its list of fields; [None] when the request has no body. *)
Record Request := mkRequest {
  url : string;
  method : string;
  headers : list (string * string);
  body : option (list (string * string))
}.

(** A [Response]: its status and what [response.json()] resolves to,
    [None] when the body is not JSON and [json()] rejects. *)
Record Response (Json : Type) := mkResponse {
  status : Z;
  json : option Json
}.
Arguments mkResponse {Json} _ _.
Arguments status {Json} _.
Arguments json {Json} _.

(** [response.ok]: the status is in the range 200-299. *)
Definition ok {Json : Type} (response : Response Json) : bool :=
  (200 <=? status response) && (status response <=? 299).

(** [interface RefreshTokenResponse] *)
Record RefreshTokenResponse := mkRefreshTokenResponse {
  access : string;
  access_expires_at : string;
  message : string
}.

(** A field of the body of a failed response, as the error branch of
    [handleResponse] uses it: the field is tested for truthiness and, when
    it is the one chosen, handed to [new Error], which takes [String()] of
    it.  [Falsy] is a field that is missing, [null], [false], [0] or the
    empty string; [Truthy text] is any other value, [text] being what
    [String()] makes of it (the string itself, the empty string for [[]],
    [[object Object]] for a plain object); [Unprintable] is a truthy value
    on which [String()] throws (an object whose [toString] is not a
    function). *)
Inductive ErrorField :=
  | Falsy
  | Truthy (text : string)
  | Unprintable.

(** The three fields that the error branch reads off the body.  A body
    that is a number, a string, a boolean or an array has none of them. *)
Record ErrorData := mkErrorData {
  error_field : ErrorField;
  message_field : ErrorField;
  detail_field : ErrorField
}.

(** The object [{}] that [.catch(() => ({}))] supplies. *)
Definition emptyErrorData : ErrorData := mkErrorData Falsy Falsy Falsy.

(** What can be thrown: [new Error(message)], the rejection of [fetch] on a
    network failure, the rejection of [response.json()], and the
    [TypeError] of reading a property of [null] or of converting an
    unprintable value to a string. *)
Inductive JsError :=
  | Error (msg : string)
  | FetchFailed
  | JsonSyntaxError
  | TypeError.

(** ** The world an asynchronous method runs in *)

Record World := mkWorld {
  localStorage : gmap string string;
  requests : list Request;              (* calls of fetch, oldest first *)
  console : list (string * JsError);    (* calls of console.error *)
  location_href : string                (* window.location.href *)
}.

Definition set_localStorage (f : gmap string string -> gmap string string) (w : World) : World :=
  mkWorld (f (localStorage w)) (requests w) (console w) (location_href w).

Definition log_request (req : Request) (w : World) : World :=
  mkWorld (localStorage w) (requests w ++ [req]) (console w) (location_href w).

Definition log_console (label : string) (e : JsError) (w : World) : World :=
  mkWorld (localStorage w) (requests w) (console w ++ [(label, e)]) (location_href w).

Definition set_location_href (href : string) (w : World) : World :=
  mkWorld (localStorage w) (requests w) (console w) href.

Inductive Completion (A : Type) :=
  | Return (a : A)
  | Throw (e : JsError).
Arguments Return {A} a.
Arguments Throw {A} e.

(** A computation over a state [S] that completes normally or throws. *)
Definition StateM (S A : Type) : Type := S -> Completion A * S.

Definition ret {S A : Type} (a : A) : StateM S A := fun w => (Return a, w).

Definition throw {S A : Type} (e : JsError) : StateM S A := fun w => (Throw e, w).

Definition bind {S A B : Type} (c : StateM S A) (k : A -> StateM S B) : StateM S B :=
  fun w =>
    match c w with
    | (Return a, w') => k a w'
    | (Throw e, w') => (Throw e, w')
    end.

(** [try { c } catch (error) { handler error }] *)
Definition try_catch {S A : Type} (c : StateM S A) (handler : JsError -> StateM S A)
    : StateM S A :=
  fun w =>
    match c w with
    | (Return a, w') => (Return a, w')
    | (Throw e, w') => handler e w'
    end.

(** The methods of [AuthService] and [ApiClient] run in the [World]. *)
Definition M (A : Type) : Type := StateM World A.

(** A synchronous read of [localStorage]. *)
Definition gets {A : Type} (f : gmap string string -> A) : M A :=
  fun w => (Return (f (localStorage w)), w).

(** A synchronous update of [localStorage]. *)
Definition modify (f : gmap string string -> gmap string string) : M unit :=
  fun w => (Return tt, set_localStorage f w).

Definition console_error (label : string) (e : JsError) : M unit :=
  fun w => (Return tt, log_console label e w).

Definition assign_location_href (href : string) : M unit :=
  fun w => (Return tt, set_location_href href w).

Declare Scope js_scope.
Delimit Scope js_scope with js.
Notation "x <- c ;; k" := (bind c (fun x => k))
  (at level 100, c at next level, right associativity) : js_scope.
Notation "c ;; k" := (bind c (fun _ => k))
  (at level 100, right associativity) : js_scope.

(** The environment of the program: the [Date] built-in, the JSON bodies
    with the two shapes the code reads them at (TypeScript's unchecked
    type assertions), and the backend. *)
Class Env := {
  Json : Type;
  asErrorData : Json -> option ErrorData;   (* [None]: the body is [null] *)
  asRefreshTokenResponse : Json -> RefreshTokenResponse;
  #[global] Env_date :: JSDate;
  server : list Request -> Request -> option (Response Json)
}.

(** [await fetch(...)]: the request reaches the server, which answers or
    not. *)
Definition fetch `{Env} (req : Request) : M (Response Json) :=
  fun w =>
    match server (requests w) req with
    | Some response => (Return response, log_request req w)
    | None => (Throw FetchFailed, log_request req w)
    end.

(** [response.json()] *)
Definition Response_json `{Env} (response : Response Json) : M Json :=
  match json response with
  | Some j => ret j
  | None => throw JsonSyntaxError
  end.

(** [await response.json().catch(() => ({}))]: the body as the error
    branch reads it, [None] when the body is the JSON [null]. *)
Definition Response_errorData `{Env} (response : Response Json) : option ErrorData :=
  match json response with
  | Some j => asErrorData j
  | None => Some emptyErrorData
  end.

(** The message that [new Error(errorData.error || errorData.message ||
    errorData.detail || `HTTP error! status: ${response.status}`)] gets:
    [String()] of the first truthy operand, [None] when [String()] throws
    on it. *)
Definition errorMessage (errorData : ErrorData) (status : Z) : option string :=
  match error_field errorData with
  | Truthy text => Some text
  | Unprintable => None
  | Falsy =>
      match message_field errorData with
      | Truthy text => Some text
      | Unprintable => None
      | Falsy =>
          match detail_field errorData with
          | Truthy text => Some text
          | Unprintable => None
          | Falsy => Some ("HTTP error! status: " ++ pretty status)
          end
      end
  end.

(** What [throw new Error(errorData.error || ...)] throws: the [Error], or
    the [TypeError] of reading [.error] of [null] or of an unprintable
    operand. *)
Definition errorThrown (errorData : option ErrorData) (status : Z) : JsError :=
  match errorData with
  | Some fields =>
      match errorMessage fields status with
      | Some msg => Error msg
      | None => TypeError
      end
  | None => TypeError
  end.

(** The string that [localStorage.setItem] stores for a [string | null]. *)
Definition String_of (v : option string) : string :=
  match v with
  | Some s => s
  | None => "null"
  end.

(** ** Request bodies and query parameters *)

(** [interface LoginRequest] *)
Module LoginRequest.
Record t := make { email : string; password : string }.
End LoginRequest.

(** [interface TokenRequest] *)
Module TokenRequest.
Record t := make { username : string; password : string }.
End TokenRequest.

(** [interface ResetPasswordRequest] *)
Module ResetPasswordRequest.
Record t := make { employee_id : string; email : string }.
End ResetPasswordRequest.

(** [interface ChangePasswordRequest] *)
Record ChangePasswordRequest := mkChangePasswordRequest {
  old_password : string;
  new_password : string;
  new_password_confirm : string
}.

(** A value of a [Record<string, any>] of query parameters.  The code
    tests it against [undefined] and [null] and otherwise only calls
    [toString()] on it, so a value that is neither is given by the string
    that [toString()] returns. *)
Inductive JsAny :=
  | Undefined
  | Null
  | Value (toString : string).

(** [if (params) { Object.entries(params).forEach(([key, value]) => { if
    (value !== undefined && value !== null) queryParams.append(key,
    value.toString()) }) }]: the pairs appended, in order.  [params] is the
    list of entries of the object. *)
Definition appended (params : option (list (string * JsAny))) : list (string * string) :=
  match params with
  | Some entries =>
      flat_map (fun entry : string * JsAny =>
                  match snd entry with
                  | Value text => [(fst entry, text)]
                  | Undefined | Null => []
                  end) entries
  | None => []
  end.

(** The part of [URLSearchParams] that the code uses: [toString()] on the
    pairs appended so far.  It is the empty string exactly when nothing was
    appended (every pair contributes at least its ["="]). *)
Class URLSearchParams := {
  URLSearchParams_toString : list (string * string) -> string;
  URLSearchParams_toString_nil : URLSearchParams_toString [] = "";
  URLSearchParams_toString_cons :
    forall entry rest, URLSearchParams_toString (entry :: rest) <> ""
}.

(** ** [class AuthService] *)

Module AuthService.

Definition BASE_URL : string := "http://127.0.0.1:8000/api/v1/accounts".

Definition getAuthHeaders (token : option string) : list (string * string) :=
  let headers := [("Content-Type", "application/json")] in
  match token with
  | Some t => if truthy token then headers ++ [("Authorization", "Bearer " ++ t)] else headers
  | None => headers
  end.

Definition handleResponse `{Env} (response : Response Json) : M Json :=
  if negb (ok response) then
    let errorData := Response_errorData response in
    throw (errorThrown errorData (status response))
  else Response_json response.

(** 3. Refresh JWT Token *)
Definition refreshRequest (refreshToken : string) : Request :=
  mkRequest (BASE_URL ++ "/auth/token/refresh/") "POST" (getAuthHeaders None)
            (Some [("refresh", refreshToken)]).

Definition refreshToken `{Env} (refreshToken : string) : M RefreshTokenResponse :=
  (response <- fetch (refreshRequest refreshToken) ;;
   j <- handleResponse response ;;
   ret (asRefreshTokenResponse j))%js.

(** 7. Get User Profile *)
Definition getProfile `{Env} (token : string) : M Json :=
  (response <- fetch (mkRequest (BASE_URL ++ "/profile/") "GET"
                                (getAuthHeaders (Some token)) None) ;;
   handleResponse response)%js.

(** 1. User Login with JWT *)
Definition login `{Env} (credentials : LoginRequest.t) : M Json :=
  (response <- fetch (mkRequest (BASE_URL ++ "/auth/login/") "POST" (getAuthHeaders None)
                        (Some [("email", LoginRequest.email credentials);
                               ("password", LoginRequest.password credentials)])) ;;
   handleResponse response)%js.

(** 2. Get Auth Token (Alternative login method) *)
Definition getToken `{Env} (credentials : TokenRequest.t) : M Json :=
  (response <- fetch (mkRequest (BASE_URL ++ "/auth/token/") "POST" (getAuthHeaders None)
                        (Some [("username", TokenRequest.username credentials);
                               ("password", TokenRequest.password credentials)])) ;;
   handleResponse response)%js.

(** 4. User Logout with JWT.  [JSON.stringify] leaves an [undefined]
    [refresh] out of the body. *)
Definition logout `{Env} (accessToken : string) (refreshToken : option string) : M Json :=
  (response <- fetch (mkRequest (BASE_URL ++ "/auth/logout/") "POST"
                        (getAuthHeaders (Some accessToken))
                        (Some match refreshToken with
                              | Some r => [("refresh", r)]
                              | None => []
                              end)) ;;
   handleResponse response)%js.

(** 5. Change Password *)
Definition changePassword `{Env} (token : string) (passwordData : ChangePasswordRequest)
    : M Json :=
  (response <- fetch (mkRequest (BASE_URL ++ "/auth/change-password/") "POST"
                        (getAuthHeaders (Some token))
                        (Some [("old_password", old_password passwordData);
                               ("new_password", new_password passwordData);
                               ("new_password_confirm", new_password_confirm passwordData)])) ;;
   handleResponse response)%js.

(** 6. Request Password Reset *)
Definition requestPasswordReset `{Env} (resetData : ResetPasswordRequest.t) : M Json :=
  (response <- fetch (mkRequest (BASE_URL ++ "/auth/reset-password-request/") "POST"
                        (getAuthHeaders None)
                        (Some [("employee_id", ResetPasswordRequest.employee_id resetData);
                               ("email", ResetPasswordRequest.email resetData)])) ;;
   handleResponse response)%js.

(** 10. Get User Preferences *)
Definition getPreferences `{Env} (token : string) : M Json :=
  (response <- fetch (mkRequest (BASE_URL ++ "/preferences/") "GET"
                        (getAuthHeaders (Some token)) None) ;;
   handleResponse response)%js.

(** 12. Get Session Status *)
Definition getSessionStatus `{Env} (token : string) : M Json :=
  (response <- fetch (mkRequest (BASE_URL ++ "/auth/session/status/") "GET"
                        (getAuthHeaders (Some token)) None) ;;
   handleResponse response)%js.

(** 13. Get User Sessions *)
Definition getUserSessions `{Env} (token : string) : M Json :=
  (response <- fetch (mkRequest (BASE_URL ++ "/auth/sessions/") "GET"
                        (getAuthHeaders (Some token)) None) ;;
   handleResponse response)%js.

(** 15. Get Dashboard Statistics *)
Definition getDashboardStats `{Env} (token : string) : M Json :=
  (response <- fetch (mkRequest (BASE_URL ++ "/dashboard/stats/") "GET"
                        (getAuthHeaders (Some token)) None) ;;
   handleResponse response)%js.

(** User Activities *)
Definition getUserActivities `{Env} `{URLSearchParams} (token : string)
    (params : option (list (string * JsAny))) : M Json :=
  (let queryParams := appended params in
   response <- fetch (mkRequest (BASE_URL ++ "/activities/?"
                                   ++ URLSearchParams_toString queryParams)
                        "GET" (getAuthHeaders (Some token)) None) ;;
   handleResponse response)%js.

(** User Sessions *)
Definition getAllUserSessions `{Env} `{URLSearchParams} (token : string)
    (params : option (list (string * JsAny))) : M Json :=
  (let queryParams := appended params in
   response <- fetch (mkRequest (BASE_URL ++ "/sessions/?"
                                   ++ URLSearchParams_toString queryParams)
                        "GET" (getAuthHeaders (Some token)) None) ;;
   handleResponse response)%js.

(** JWT Token Management Utilities *)

Definition getStoredAccessToken (ls : gmap string string) : option string :=
  Storage.getItem ACCESS_TOKEN ls.

Definition getStoredRefreshToken (ls : gmap string string) : option string :=
  Storage.getItem REFRESH_TOKEN ls.

Definition storeTokens (accessToken refreshToken accessExpiresAt refreshExpiresAt : string)
    (ls : gmap string string) : gmap string string :=
  let ls := Storage.setItem ACCESS_TOKEN accessToken ls in
  let ls := Storage.setItem REFRESH_TOKEN refreshToken ls in
  let ls := Storage.setItem ACCESS_EXPIRES_AT accessExpiresAt ls in
  Storage.setItem REFRESH_EXPIRES_AT refreshExpiresAt ls.

Definition removeTokens (ls : gmap string string) : gmap string string :=
  let ls := Storage.removeItem ACCESS_TOKEN ls in
  let ls := Storage.removeItem REFRESH_TOKEN ls in
  let ls := Storage.removeItem ACCESS_EXPIRES_AT ls in
  Storage.removeItem REFRESH_EXPIRES_AT ls.

Definition removeUser (ls : gmap string string) : gmap string string :=
  Storage.removeItem USER_DATA ls.

(** [new Date() >= new Date(expiresAt)]: a comparison with NaN is false. *)
Definition isTokenExpired `{JSDate} (now : Z) (expiresAt : string) : bool :=
  match Date_parse expiresAt with
  | Some t => t <=? now
  | None => false
  end.

(** [!expiresAt || this.isTokenExpired(expiresAt)] *)
Definition expiredOrMissing `{JSDate} (now : Z) (expiresAt : option string) : bool :=
  match expiresAt with
  | Some e => if truthy (Some e) then isTokenExpired now e else true
  | None => true
  end.

Definition isAccessTokenExpired `{JSDate} (now : Z) (ls : gmap string string) : bool :=
  expiredOrMissing now (Storage.getItem ACCESS_EXPIRES_AT ls).

Definition isRefreshTokenExpired `{JSDate} (now : Z) (ls : gmap string string) : bool :=
  expiredOrMissing now (Storage.getItem REFRESH_EXPIRES_AT ls).

(** [!!(accessToken && refreshToken && !this.isRefreshTokenExpired())] *)
Definition isAuthenticated `{JSDate} (now : Z) (ls : gmap string string) : bool :=
  let accessToken := getStoredAccessToken ls in
  let refreshToken := getStoredRefreshToken ls in
  truthy accessToken && truthy refreshToken && negb (isRefreshTokenExpired now ls).

(** Legacy compatibility methods. *)
Definition getStoredToken (ls : gmap string string) : option string :=
  getStoredAccessToken ls.

Definition storeToken (token : string) (ls : gmap string string) : gmap string string :=
  Storage.setItem ACCESS_TOKEN token ls.

Definition removeToken (ls : gmap string string) : gmap string string :=
  removeTokens ls.

Definition getValidAccessToken `{Env} (now : Z) : M (option string) :=
  (accessToken <- gets getStoredAccessToken ;;
   refreshToken_ <- gets getStoredRefreshToken ;;
   match accessToken, refreshToken_ with
   | Some accessToken, Some refreshToken_ =>
       if negb (truthy (Some accessToken)) || negb (truthy (Some refreshToken_))
       then ret None
       else
         (* If access token is not expired, return it *)
         accessExpired <- gets (isAccessTokenExpired now) ;;
         if negb accessExpired then ret (Some accessToken)
         else
           (* If refresh token is expired, user needs to login again *)
           refreshExpired <- gets (isRefreshTokenExpired now) ;;
           if refreshExpired then
             (modify removeTokens ;; modify removeUser ;; ret None)
           else
             (* Try to refresh the access token *)
             try_catch
               (refreshResponse <- refreshToken refreshToken_ ;;
                refreshExpiresAt <- gets (Storage.getItem REFRESH_EXPIRES_AT) ;;
                modify (storeTokens (access refreshResponse)
                                    refreshToken_
                                    (access_expires_at refreshResponse)
                                    (String_of refreshExpiresAt)) ;;
                ret (Some (access refreshResponse)))
               (fun error =>
                  console_error "Token refresh failed:" error ;;
                  modify removeTokens ;;
                  modify removeUser ;;
                  ret None)
   | _, _ => ret None
   end)%js.

End AuthService.

(** ** [class ApiClient] *)

Module ApiClient.

Definition getAuthHeaders `{Env} (now : Z) : M (list (string * string)) :=
  (let headers : list (string * string) := [("Content-Type", "application/json")] in
   token <- AuthService.getValidAccessToken now ;;
   match token with
   | Some t => if truthy token
               then ret (headers ++ [("Authorization", ("Bearer " ++ t)%string)])%list
               else ret headers
   | None => ret headers
   end)%js.

Definition handleResponse `{Env} (response : Response Json) : M Json :=
  if negb (ok response) then
    let errorData := Response_errorData response in
    (* Handle authentication errors *)
    if status response =? 401 then
      ((* Token is invalid, clear auth data *)
       modify AuthService.removeTokens ;;
       modify AuthService.removeUser ;;
       assign_location_href "/" ;;
       throw (Error "Authentication required. Please login again."))%js
    else throw (errorThrown errorData (status response))
  else Response_json response.

Definition post `{Env} (baseURL : string) (now : Z) (endpoint : string)
    (data : option (list (string * string))) : M Json :=
  (headers <- getAuthHeaders now ;;
   response <- fetch (mkRequest (baseURL ++ endpoint) "POST" headers data) ;;
   handleResponse response)%js.

Definition delete `{Env} (baseURL : string) (now : Z) (endpoint : string) : M Json :=
  (headers <- getAuthHeaders now ;;
   response <- fetch (mkRequest (baseURL ++ endpoint) "DELETE" headers None) ;;
   handleResponse response)%js.

Definition put `{Env} (baseURL : string) (now : Z) (endpoint : string)
    (data : option (list (string * string))) : M Json :=
  (headers <- getAuthHeaders now ;;
   response <- fetch (mkRequest (baseURL ++ endpoint) "PUT" headers data) ;;
   handleResponse response)%js.

Definition patch `{Env} (baseURL : string) (now : Z) (endpoint : string)
    (data : option (list (string * string))) : M Json :=
  (headers <- getAuthHeaders now ;;
   response <- fetch (mkRequest (baseURL ++ endpoint) "PATCH" headers data) ;;
   handleResponse response)%js.

(** [`${this.baseURL}${endpoint}${queryParams.toString() ? '?' +
    queryParams.toString() : ''}`] *)
Definition get_url `{URLSearchParams} (baseURL endpoint : string)
    (params : option (list (string * JsAny))) : string :=
  let queryParams := appended params in
  baseURL ++ endpoint
  ++ (if truthy (Some (URLSearchParams_toString queryParams))
      then "?" ++ URLSearchParams_toString queryParams
      else "").

Definition get `{Env} `{URLSearchParams} (baseURL : string) (now : Z) (endpoint : string)
    (params : option (list (string * JsAny))) : M Json :=
  (let url := get_url baseURL endpoint params in
   headers <- getAuthHeaders now ;;
   response <- fetch (mkRequest url "GET" headers None) ;;
   handleResponse response)%js.

Definition accountsApi : string := "https://kmrl-backend-qjvw.onrender.com/api/v1/accounts".
Definition fleetApi : string := "https://kmrl-backend-qjvw.onrender.com/api/v1/fleet-management".
Definition depotApi : string := "https://kmrl-backend-qjvw.onrender.com/api/v1/depot-management".

End ApiClient.

(** ** [useAuthInterceptor]

    The hook takes [token], [isAuthenticated], [refreshAccessToken] and
    [logout] from [useAuth()].  The two functions are given by what their
    calls complete with, the n-th call of each counted from 0. *)

Module AuthInterceptor.

Record AuthContext := mkAuthContext {
  token : option string;
  isAuthenticated : bool;
  refreshAccessToken : nat -> Completion bool;
  logout : nat -> Completion unit
}.

Inductive Event :=
  | CallRefreshAccessToken
  | CallLogout
  | Navigate (to : string)
  | ConsoleError (label : string).

Definition is_refresh (e : Event) : bool :=
  match e with CallRefreshAccessToken => true | _ => false end.

Definition is_logout (e : Event) : bool :=
  match e with CallLogout => true | _ => false end.

(** The function handed to [setInterval]. *)
Inductive Callback := CheckAndRefreshToken.

(** The state the hook acts on: what it has called so far, and the
    interval timers of the page with their callback and delay in
    milliseconds. *)
Record Page := mkPage {
  trace : list Event;
  timers : gmap nat (Callback * Z);
  nextTimerId : nat
}.

Definition emit (e : Event) : StateM Page unit :=
  fun p => (Return tt, mkPage (trace p ++ [e]) (timers p) (nextTimerId p)).

Definition call_refreshAccessToken (ctx : AuthContext) : StateM Page bool :=
  fun p =>
    (refreshAccessToken ctx (length (filter is_refresh (trace p))),
     mkPage (trace p ++ [CallRefreshAccessToken]) (timers p) (nextTimerId p)).

Definition call_logout (ctx : AuthContext) : StateM Page unit :=
  fun p =>
    (logout ctx (length (filter is_logout (trace p))),
     mkPage (trace p ++ [CallLogout]) (timers p) (nextTimerId p)).

Definition navigate (to : string) : StateM Page unit := emit (Navigate to).

Definition setInterval (handler : Callback) (delay : Z) : StateM Page nat :=
  fun p =>
    (Return (nextTimerId p),
     mkPage (trace p) (<[nextTimerId p := (handler, delay)]> (timers p))
            (S (nextTimerId p))).

Definition clearInterval (id : nat) : StateM Page unit :=
  fun p => (Return tt, mkPage (trace p) (delete id (timers p)) (nextTimerId p)).

Definition checkAndRefreshToken (ctx : AuthContext) : StateM Page unit :=
  try_catch
    (success <- call_refreshAccessToken ctx ;;
     if negb success then
       (* Token refresh failed, logout user *)
       (call_logout ctx ;; navigate "/")
     else ret tt)%js
    (fun error =>
       emit (ConsoleError "Token refresh failed:") ;;
       call_logout ctx ;;
       navigate "/")%js.

(** The body of the [useEffect]: [None] when it returns early, otherwise
    the cleanup function it returns. *)
Definition effect (ctx : AuthContext) : StateM Page (option (StateM Page unit)) :=
  if negb (truthy (token ctx)) || negb (isAuthenticated ctx) then ret None
  else
    (* Check token every 5 minutes *)
    (interval <- setInterval CheckAndRefreshToken (5 * 60 * 1000) ;;
     ret (Some (clearInterval interval)))%js.


End AuthInterceptor.

(** ** [ProfileManagement]: the change-password form

    The part of the component's state that [handleChangePassword] reads and
    sets, and the toasts it raises.  The handler runs on the world and this
    view together. *)

Module ProfileManagement.

(** The [description] of a toast: a literal, or [error.message]. *)
Inductive Description :=
  | Text (s : string)
  | MessageOf (error : JsError).

Record Toast := mkToast {
  title : string;
  description : Description;
  variant : option string
}.

Record View := mkView {
  saving : bool;
  showPasswordForm : bool;
  passwordData : ChangePasswordRequest;
  toasts : list Toast                     (* calls of toast, oldest first *)
}.

Definition UI (A : Type) : Type := StateM (World * View) A.

(** [await] of a method of [authService]. *)
Definition await {A : Type} (c : M A) : UI A :=
  fun s =>
    match c (fst s) with
    | (r, w') => (r, (w', snd s))
    end.

Definition toast (t : Toast) : UI unit :=
  fun s =>
    (Return tt,
     (fst s, mkView (saving (snd s)) (showPasswordForm (snd s)) (passwordData (snd s))
                    (toasts (snd s) ++ [t]))).

Definition setSaving (b : bool) : UI unit :=
  fun s =>
    (Return tt,
     (fst s, mkView b (showPasswordForm (snd s)) (passwordData (snd s)) (toasts (snd s)))).

Definition setShowPasswordForm (b : bool) : UI unit :=
  fun s =>
    (Return tt,
     (fst s, mkView (saving (snd s)) b (passwordData (snd s)) (toasts (snd s)))).

Definition setPasswordData (d : ChangePasswordRequest) : UI unit :=
  fun s =>
    (Return tt,
     (fst s, mkView (saving (snd s)) (showPasswordForm (snd s)) d (toasts (snd s)))).

(** [try { c } finally { cleanup }] *)
Definition try_finally {S A : Type} (c : StateM S A) (cleanup : StateM S unit)
    : StateM S A :=
  fun s =>
    match c s with
    | (r, s') =>
        match cleanup s' with
        | (Return _, s'') => (r, s'')
        | (Throw e, s'') => (Throw e, s'')
        end
    end.

Definition handleChangePassword `{Env} (token : string) : UI unit :=
  try_finally
    (try_catch
       (fun s =>
          let passwordData := passwordData (snd s) in
          (if negb (truthy (Some (old_password passwordData)))
              || negb (truthy (Some (new_password passwordData)))
              || negb (truthy (Some (new_password_confirm passwordData)))
           then
             toast (mkToast "Validation Error"
                            (Text "Please fill in all password fields")
                            (Some "destructive"))
           else if negb (String.eqb (new_password passwordData)
                                    (new_password_confirm passwordData))
           then
             toast (mkToast "Validation Error"
                            (Text "New passwords do not match")
                            (Some "destructive"))
           else
             (setSaving true ;;
              await (AuthService.changePassword token passwordData) ;;
              toast (mkToast "Success" (Text "Password changed successfully") None) ;;
              setShowPasswordForm false ;;
              setPasswordData (mkChangePasswordRequest "" "" ""))%js) s)
       (fun error =>
          toast (mkToast "Error Changing Password" (MessageOf error)
                         (Some "destructive"))))
    (setSaving false).

End ProfileManagement.

(** ** [SessionManager] *)

Module SessionManager.

(** [Number.MAX_SAFE_INTEGER], 2^53 - 1: up to it a double holds every
    whole number exactly. *)
Definition MAX_SAFE_INTEGER : Z := 9007199254740991.

(** [formatTimeRemaining], for a whole number of seconds that is at most
    [MAX_SAFE_INTEGER].  On these the divisions and [Math.floor] of the
    code, computed on doubles, are the integer quotients, and the numbers
    inserted in the text print as decimals.  Above the bound the code
    rounds and prints differently; the embedding gives [None] there and
    says nothing about the code. *)
Definition formatTimeRemaining (seconds : Z) : option string :=
  if MAX_SAFE_INTEGER <? seconds then None
  else if seconds <=? 0 then Some "Expired"
  else
    let hours := seconds / 3600 in
    let minutes := (seconds mod 3600) / 60 in
    if 0 <? hours then Some (pretty hours ++ "h " ++ pretty minutes ++ "m")
    else Some (pretty minutes ++ "m").

End SessionManager.

(** ** An instance of [Date]: the ECMAScript date-time string format

    [YYYY-MM-DDTHH:mm:ss.sssZ], the format every engine parses the same
    way and the one [Date.prototype.toISOString] produces.  Other strings
    are Invalid Dates in this instance. *)

Module IsoDate.

Definition digit (c : ascii) : option Z :=
  let n := Z.of_nat (nat_of_ascii c) in
  if (48 <=? n) && (n <=? 57) then Some (n - 48) else None.

Fixpoint number (s : string) (acc : Z) : option Z :=
  match s with
  | EmptyString => Some acc
  | String c s' =>
      match digit c with
      | Some d => number s' (10 * acc + d)
      | None => None
      end
  end.

Definition field (s : string) (pos len : nat) : option Z :=
  number (String.substring pos len s) 0.

Definition sep (s : string) (pos : nat) (c : string) : bool :=
  String.eqb (String.substring pos 1 s) c.

Definition leap (y : Z) : bool :=
  ((y mod 4 =? 0) && negb (y mod 100 =? 0)) || (y mod 400 =? 0).

Definition days_in_month (y m : Z) : Z :=
  if m =? 2 then (if leap y then 29 else 28)
  else if (m =? 4) || (m =? 6) || (m =? 9) || (m =? 11) then 30
  else 31.

(** Days from 1970-01-01 to the civil date [y]-[m]-[d]. *)
Definition days_from_civil (y m d : Z) : Z :=
  let y' := if m <=? 2 then y - 1 else y in
  let era := y' / 400 in
  let yoe := y' - era * 400 in
  let mp := if 2 <? m then m - 3 else m + 9 in
  let doy := (153 * mp + 2) / 5 + d - 1 in
  let doe := yoe * 365 + yoe / 4 - yoe / 100 + doy in
  era * 146097 + doe - 719468.

Definition parse (s : string) : option Z :=
  if negb (Nat.eqb (String.length s) 24) then None
  else if negb (sep s 4 "-" && sep s 7 "-" && sep s 10 "T" && sep s 13 ":"
                && sep s 16 ":" && sep s 19 "." && sep s 23 "Z") then None
  else
    match field s 0 4, field s 5 2, field s 8 2,
          field s 11 2, field s 14 2, field s 17 2, field s 20 3 with
    | Some y, Some m, Some d, Some h, Some mi, Some sec, Some ms =>
        if (1 <=? m) && (m <=? 12) && (1 <=? d) && (d <=? days_in_month y m)
           && (h <=? 23) && (mi <=? 59) && (sec <=? 59)
        then Some ((((days_from_civil y m d * 24 + h) * 60 + mi) * 60 + sec) * 1000 + ms)
        else None
    | _, _, _, _, _, _, _ => None
    end.

Definition date : JSDate :=
  {| Date_parse := parse; Date_parse_empty := eq_refl |}.

End IsoDate.


(** ** An instance of [URLSearchParams]: the form-urlencoded serializer

    Letters, digits and [*-._] stand for themselves, a space becomes [+],
    every other byte becomes [%XX]; pairs are written [name=value] and
    joined by [&]. *)

Module FormUrlencoded.

Definition hex_digit (n : N) : ascii :=
  ascii_of_N (if (n <? 10)%N then 48 + n else 55 + n)%N.

Definition unreserved (c : ascii) : bool :=
  let n := N_of_ascii c in
  ((48 <=? n) && (n <=? 57) || (65 <=? n) && (n <=? 90) || (97 <=? n) && (n <=? 122)
   || (n =? 42) || (n =? 45) || (n =? 46) || (n =? 95))%N.

Fixpoint encode (s : string) : string :=
  match s with
  | EmptyString => EmptyString
  | String c s' =>
      if unreserved c then String c (encode s')
      else if (N_of_ascii c =? 32)%N then String "+" (encode s')
      else String "%" (String (hex_digit (N_of_ascii c / 16))
                         (String (hex_digit (N_of_ascii c mod 16)) (encode s')))
  end.

Fixpoint serialize (pairs : list (string * string)) : string :=
  match pairs with
  | [] => ""
  | entry :: rest =>
      encode (fst entry) ++ "=" ++ encode (snd entry)
      ++ match rest with
         | [] => ""
         | _ :: _ => "&" ++ serialize rest
         end
  end.

Definition params : URLSearchParams.
Proof.
  refine {| URLSearchParams_toString := serialize;
            URLSearchParams_toString_nil := eq_refl |}.
  intros entry rest. simpl. destruct (encode (fst entry)); discriminate.
Defined.

End FormUrlencoded.

(** ** Concrete environments and stores

    The instant is 2026-11-01T12:00:00.000Z.  The backend answers every
    request the same way; its JSON bodies are refresh responses, whose
    [message] is the only field the error branch finds. *)

Module Scenario.

Definition now : Z := 1793534400000.

Definition an_hour_ago : string := "2026-11-01T11:00:00.000Z".
Definition in_an_hour : string := "2026-11-01T13:00:00.000Z".
Definition in_a_week : string := "2026-11-08T12:00:00.000Z".
Definition yesterday : string := "2026-10-31T12:00:00.000Z".

Definition quote : string := String (ascii_of_nat 34) EmptyString.

(** The cached profile, [{"id":"7"}]. *)
Definition user_json : string :=
  "{" ++ quote ++ "id" ++ quote ++ ":" ++ quote ++ "7" ++ quote ++ "}".

Definition asError (r : RefreshTokenResponse) : option ErrorData :=
  Some (mkErrorData Falsy
          (if String.eqb (message r) "" then Falsy else Truthy (message r))
          Falsy).

Definition answering (response : option (Response RefreshTokenResponse)) : Env :=
  {| Json := RefreshTokenResponse;
     asErrorData := asError;
     asRefreshTokenResponse := fun r => r;
     Env_date := IsoDate.date;
     server := fun _ _ => response |}.

Definition refreshed : RefreshTokenResponse :=
  mkRefreshTokenResponse "access-2" in_an_hour "Token refreshed".

Definition backdated : RefreshTokenResponse :=
  mkRefreshTokenResponse "access-2" an_hour_ago "Token refreshed".

Definition backend_up : Env := answering (Some (mkResponse 200 (Some refreshed))).
Definition backend_backdating : Env := answering (Some (mkResponse 200 (Some backdated))).
Definition backend_rejecting : Env := answering (Some (mkResponse 401 None)).
Definition backend_down : Env := answering None.

Definition page (ls : gmap string string) : World := mkWorld ls [] [] "/dashboard".

Definition with_user (ls : gmap string string) : gmap string string :=
  <[USER_DATA := user_json]> ls.

(** Both tokens stored, the access token good for another hour. *)
Definition fresh : gmap string string :=
  with_user (AuthService.storeTokens "access-1" "refresh-1" in_an_hour in_a_week ∅).

(** The access token ran out an hour ago, the refresh token has a week left. *)
Definition stale : gmap string string :=
  with_user (AuthService.storeTokens "access-1" "refresh-1" an_hour_ago in_a_week ∅).

(** Both tokens ran out. *)
Definition lapsed : gmap string string :=
  with_user (AuthService.storeTokens "access-1" "refresh-1" yesterday an_hour_ago ∅).

(** The refresh token ran out while the access token is still good. *)
Definition refresh_lapsed_first : gmap string string :=
  with_user (AuthService.storeTokens "access-1" "refresh-1" in_an_hour an_hour_ago ∅).

(** A refresh token with a week left and no access token. *)
Definition refresh_only : gmap string string :=
  with_user (<[REFRESH_TOKEN := "refresh-1"]> (<[REFRESH_EXPIRES_AT := in_a_week]> ∅)).


(** A page with no timer set and nothing called yet. *)
Definition idle : AuthInterceptor.Page := AuthInterceptor.mkPage [] ∅ 1.


(** A signed-in user whose refresh is refused and whose first call of
    [logout] rejects, the later ones resolving. *)
Definition logout_failing_once : AuthInterceptor.AuthContext :=
  AuthInterceptor.mkAuthContext (Some "access-1") true
    (fun _ => Return false)
    (fun n => match n with O => Throw FetchFailed | S _ => Return tt end).

(** The change-password form as the user filled it in. *)
Definition form (old new confirm : string) : ProfileManagement.View :=
  ProfileManagement.mkView false true (mkChangePasswordRequest old new confirm) [].

End Scenario.

(** ** Consistency of the stored credential fields

    The specification's notion: no token is present without its expiry
    and no expiry without its token. *)
Definition fields_consistent (ls : gmap string string) : Prop :=
  (is_Some (ls !! ACCESS_TOKEN) <-> is_Some (ls !! ACCESS_EXPIRES_AT))
  /\ (is_Some (ls !! REFRESH_TOKEN) <-> is_Some (ls !! REFRESH_EXPIRES_AT)).

(** All four credential fields and the cached user profile are gone. *)
Definition purged (ls : gmap string string) : Prop :=
  ls !! ACCESS_TOKEN = None /\ ls !! REFRESH_TOKEN = None
  /\ ls !! ACCESS_EXPIRES_AT = None /\ ls !! REFRESH_EXPIRES_AT = None
  /\ ls !! USER_DATA = None.

(** The world after a refresh with refresh token [r] failed with [e]: the
    request was sent, the failure logged and the store purged. *)
Definition after_failed_refresh (w : World) (r : string) (e : JsError) : World :=
  mkWorld (AuthService.removeUser (AuthService.removeTokens (localStorage w)))
          (requests w ++ [AuthService.refreshRequest r])
          (console w ++ [("Token refresh failed:", e)])
          (location_href w).

(** The world after a refresh with refresh token [r] was answered by
    [resp]: the request was sent and the four fields written. *)
Definition after_refresh (w : World) (r : string) (resp : RefreshTokenResponse) : World :=
  mkWorld (AuthService.storeTokens (access resp) r (access_expires_at resp)
             (String_of (Storage.getItem REFRESH_EXPIRES_AT (localStorage w)))
             (localStorage w))
          (requests w ++ [AuthService.refreshRequest r])
          (console w)
          (location_href w).

(** The world after a purge that sent nothing. *)
Definition after_purge (w : World) : World :=
  mkWorld (AuthService.removeUser (AuthService.removeTokens (localStorage w)))
          (requests w) (console w) (location_href w).

(** [value === undefined || value === null] *)
Definition nullish (v : JsAny) : bool :=
  match v with
  | Undefined | Null => true
  | Value _ => false
  end.

(** * Properties *)

(** ** Storage *)

Section StorageFacts.

Import AuthService.

Lemma keys_distinct :
  ACCESS_TOKEN <> REFRESH_TOKEN /\ ACCESS_TOKEN <> ACCESS_EXPIRES_AT
  /\ ACCESS_TOKEN <> REFRESH_EXPIRES_AT /\ ACCESS_TOKEN <> USER_DATA
  /\ REFRESH_TOKEN <> ACCESS_EXPIRES_AT /\ REFRESH_TOKEN <> REFRESH_EXPIRES_AT
  /\ REFRESH_TOKEN <> USER_DATA /\ ACCESS_EXPIRES_AT <> REFRESH_EXPIRES_AT
  /\ ACCESS_EXPIRES_AT <> USER_DATA /\ REFRESH_EXPIRES_AT <> USER_DATA.
Proof. repeat split; discriminate. Qed.

Lemma truthy_true (v : option string) :
  truthy v = true <-> exists s, v = Some s /\ s <> "".
Proof.
  destruct v as [s|]; simpl.
  - rewrite negb_true_iff, String.eqb_neq. split.
    + intros Hs. exists s. split; [reflexivity | exact Hs].
    + intros (s' & Heq & Hs'). injection Heq as ->. exact Hs'.
  - split; [discriminate | intros (s & Heq & _); discriminate].
Qed.

Lemma truthy_Some_nonempty (s : string) : s <> "" -> truthy (Some s) = true.
Proof. intros Hs. apply truthy_true. eauto. Qed.

Lemma storeTokens_lookup (a r ae re : string) (ls : gmap string string) (k : string) :
  storeTokens a r ae re ls !! k =
    if decide (k = REFRESH_EXPIRES_AT) then Some re
    else if decide (k = ACCESS_EXPIRES_AT) then Some ae
    else if decide (k = REFRESH_TOKEN) then Some r
    else if decide (k = ACCESS_TOKEN) then Some a
    else ls !! k.
Proof.
  unfold storeTokens, Storage.setItem.
  repeat (rewrite lookup_insert; case_decide; subst; case_decide; try congruence).
Qed.

Lemma removeTokens_lookup (ls : gmap string string) (k : string) :
  removeTokens ls !! k =
    if decide (k = ACCESS_TOKEN \/ k = REFRESH_TOKEN
               \/ k = ACCESS_EXPIRES_AT \/ k = REFRESH_EXPIRES_AT)
    then None else ls !! k.
Proof.
  unfold removeTokens, Storage.removeItem.
  repeat (rewrite lookup_delete; case_decide; subst);
    case_decide; try reflexivity; intuition congruence.
Qed.

Lemma removeUser_lookup (ls : gmap string string) (k : string) :
  removeUser ls !! k = if decide (k = USER_DATA) then None else ls !! k.
Proof.
  unfold removeUser, Storage.removeItem. rewrite lookup_delete.
  repeat case_decide; congruence.
Qed.

Lemma purge_purged (ls : gmap string string) : purged (removeUser (removeTokens ls)).
Proof.
  unfold purged.
  repeat split; rewrite removeUser_lookup, removeTokens_lookup;
    repeat case_decide; try reflexivity; exfalso; intuition congruence.
Qed.

End StorageFacts.

(** ** Expiry *)

Section Expiry.

Context `{JSDate}.
Import AuthService.

(** A stored expiry counts as not expired exactly when it is a non-empty
    string that is not a date at or before [now]. *)
Lemma expiredOrMissing_false (now : Z) (v : option string) :
  expiredOrMissing now v = false
  <-> exists e, v = Some e /\ e <> "" /\ forall t, Date_parse e = Some t -> now < t.
Proof.
  destruct v as [e|]; simpl.
  - destruct (String.eqb_spec e "") as [-> | Hne]; simpl.
    + split; [discriminate | intros (e & Heq & Hne & _); congruence].
    + unfold isTokenExpired. split.
      * intros Hexp. exists e. repeat split; trivial.
        intros t Ht. rewrite Ht in Hexp. apply Z.leb_gt. exact Hexp.
      * intros (e' & Heq & _ & Hfut). injection Heq as <-.
        destruct (Date_parse e) as [t|]; [| reflexivity].
        apply Z.leb_gt. apply Hfut. reflexivity.
  - split; [discriminate | intros (e & Heq & _); discriminate].
Qed.

(** An expiry that parses to an instant after [now] is not expired. *)
Lemma expiredOrMissing_future (now : Z) (e : string) (t : Z) :
  Date_parse e = Some t -> now < t -> expiredOrMissing now (Some e) = false.
Proof.
  intros Ht Hlt. apply expiredOrMissing_false. exists e. repeat split.
  - intros ->. rewrite Date_parse_empty in Ht. discriminate.
  - intros t' Ht'. congruence.
Qed.

(** An expiry that parses to an instant at or before [now] is expired,
    and so is a missing one. *)
Lemma expiredOrMissing_past (now : Z) (e : string) (t : Z) :
  Date_parse e = Some t -> t <= now -> expiredOrMissing now (Some e) = true.
Proof.
  intros Ht Hle. simpl. destruct (String.eqb e ""); simpl; [reflexivity |].
  unfold isTokenExpired. rewrite Ht. apply Z.leb_le. exact Hle.
Qed.

(** C10.  Storage round trip: after [storeTokens a r ae re] the getters
    return [a] and [r], [isAccessTokenExpired] and [isRefreshTokenExpired]
    are the expiry test applied to [ae] and to [re]; after [removeTokens]
    both getters return null. *)
Theorem storeTokens_round_trip (a r ae re : string) (now : Z) (ls : gmap string string) :
  getStoredAccessToken (storeTokens a r ae re ls) = Some a
  /\ getStoredRefreshToken (storeTokens a r ae re ls) = Some r
  /\ isAccessTokenExpired now (storeTokens a r ae re ls)
      = (if String.eqb ae "" then true else isTokenExpired now ae)
  /\ isRefreshTokenExpired now (storeTokens a r ae re ls)
      = (if String.eqb re "" then true else isTokenExpired now re)
  /\ getStoredAccessToken (removeTokens (storeTokens a r ae re ls)) = None
  /\ getStoredRefreshToken (removeTokens (storeTokens a r ae re ls)) = None
  /\ getStoredAccessToken (removeTokens ls) = None
  /\ getStoredRefreshToken (removeTokens ls) = None.
Proof.
  unfold getStoredAccessToken, getStoredRefreshToken, isAccessTokenExpired,
    isRefreshTokenExpired, Storage.getItem.
  rewrite !removeTokens_lookup, !storeTokens_lookup.
  repeat split; simpl; try reflexivity.
  - destruct (String.eqb ae ""); reflexivity.
  - destruct (String.eqb re ""); reflexivity.
Qed.

End Expiry.

(** ** Store and clear operations *)

Section StoreAndClear.

Import AuthService.

Lemma storeTokens_consistent (a r ae re : string) (ls : gmap string string) :
  fields_consistent (storeTokens a r ae re ls).
Proof.
  unfold fields_consistent. rewrite !storeTokens_lookup. simpl.
  split; split; intros _; eexists; reflexivity.
Qed.

Lemma removeTokens_consistent (ls : gmap string string) :
  fields_consistent (removeTokens ls).
Proof.
  unfold fields_consistent. rewrite !removeTokens_lookup. simpl.
  split; split; intros [x Hx]; discriminate.
Qed.

Lemma storeToken_lookup (t : string) (ls : gmap string string) (k : string) :
  storeToken t ls !! k = if decide (k = ACCESS_TOKEN) then Some t else ls !! k.
Proof.
  unfold storeToken, Storage.setItem. rewrite lookup_insert.
  repeat case_decide; congruence.
Qed.

(** C5, as the specification states it, fails on the legacy [storeToken]:
    on the empty store it leaves an access token without an access
    expiry. *)
Lemma storeToken_breaks_consistency :
  fields_consistent ∅
  /\ storeToken "access-1" ∅ !! ACCESS_TOKEN = Some "access-1"
  /\ storeToken "access-1" ∅ !! ACCESS_EXPIRES_AT = None
  /\ ~ fields_consistent (storeToken "access-1" ∅).
Proof.
  split; [| split; [| split]].
  - split; split; intros [x Hx]; discriminate.
  - reflexivity.
  - reflexivity.
  - intros [Hacc _].
    destruct (proj1 Hacc) as [x Hx]; [eexists; reflexivity | discriminate].
Qed.

(** C5, amended.  [storeTokens] writes all four fields and [removeTokens]
    / [removeToken] clear all four, so each leaves every token with its
    expiry whatever the store held before; the legacy [storeToken] writes
    the access token alone and leaves the three other fields as they
    were, so its result is consistent exactly when an access expiry was
    already stored and the refresh token agreed with its expiry. *)
Theorem store_clear_consistency (a r ae re t : string) (ls : gmap string string) :
  fields_consistent (storeTokens a r ae re ls)
  /\ fields_consistent (removeTokens ls)
  /\ fields_consistent (removeToken ls)
  /\ storeToken t ls !! ACCESS_TOKEN = Some t
  /\ (forall k, k <> ACCESS_TOKEN -> storeToken t ls !! k = ls !! k)
  /\ (fields_consistent (storeToken t ls)
      <-> is_Some (ls !! ACCESS_EXPIRES_AT)
          /\ (is_Some (ls !! REFRESH_TOKEN) <-> is_Some (ls !! REFRESH_EXPIRES_AT))).
Proof.
  split; [apply storeTokens_consistent |].
  split; [apply removeTokens_consistent |].
  split; [apply removeTokens_consistent |].
  split; [rewrite storeToken_lookup; reflexivity |].
  split.
  - intros k Hk. rewrite storeToken_lookup. case_decide; congruence.
  - unfold fields_consistent. rewrite !storeToken_lookup. simpl.
    split.
    + intros [Hacc Href]. split; [| exact Href].
      apply Hacc. eexists; reflexivity.
    + intros [Hexp Href]. split; [| exact Href].
      split; intros _; [exact Hexp | eexists; reflexivity].
Qed.

End StoreAndClear.

(** ** [isAuthenticated] *)

Section IsAuthenticated.

Context `{JSDate}.
Import AuthService.

(** [isAuthenticated] does not read the access expiry. *)
Lemma isAuthenticated_ignores_access_expiry (now : Z) (ls : gmap string string) (ae : string) :
  isAuthenticated now (Storage.setItem ACCESS_EXPIRES_AT ae ls) = isAuthenticated now ls
  /\ isAuthenticated now (Storage.removeItem ACCESS_EXPIRES_AT ls) = isAuthenticated now ls.
Proof.
  unfold isAuthenticated, isRefreshTokenExpired, getStoredAccessToken,
    getStoredRefreshToken, Storage.getItem, Storage.setItem, Storage.removeItem.
  rewrite !lookup_insert, !lookup_delete. simpl. split; reflexivity.
Qed.

(** C2, amended.  When the stored refresh expiry, if there is a non-empty
    one, is a date, [isAuthenticated] is true iff a non-empty access
    token and a non-empty refresh token are stored and the refresh expiry
    is strictly in the future; the access expiry plays no part. *)
Theorem isAuthenticated_iff (now : Z) (ls : gmap string string) :
  (forall e, Storage.getItem REFRESH_EXPIRES_AT ls = Some e -> e <> "" ->
             is_Some (Date_parse e)) ->
  (isAuthenticated now ls = true
   <-> truthy (getStoredAccessToken ls) = true
       /\ truthy (getStoredRefreshToken ls) = true
       /\ exists e t, Storage.getItem REFRESH_EXPIRES_AT ls = Some e
                      /\ Date_parse e = Some t /\ now < t)
  /\ (forall ae, isAuthenticated now (Storage.setItem ACCESS_EXPIRES_AT ae ls)
                 = isAuthenticated now ls)
  /\ isAuthenticated now (Storage.removeItem ACCESS_EXPIRES_AT ls)
     = isAuthenticated now ls.
Proof.
  intros Hdate. split; [| split].
  - unfold isAuthenticated, isRefreshTokenExpired.
    rewrite !andb_true_iff, negb_true_iff, expiredOrMissing_false.
    split.
    + intros [[Ha Hr] (e & He & Hne & Hfut)]. repeat split; trivial.
      destruct (Hdate e He Hne) as [t Ht]. exists e, t. auto.
    + intros (Ha & Hr & e & t & He & Ht & Hlt). repeat split; trivial.
      exists e. repeat split; trivial.
      * intros ->. rewrite Date_parse_empty in Ht. discriminate.
      * intros t' Ht'. congruence.
  - intros ae. apply isAuthenticated_ignores_access_expiry.
  - apply (isAuthenticated_ignores_access_expiry now ls "").
Qed.

End IsAuthenticated.

(** C2, as the specification states it, fails: with a refresh token that
    has a week left and no access token stored, [isAuthenticated] is
    false. *)
Lemma isAuthenticated_needs_access_token :
  let ls := Scenario.refresh_only in
  (exists r e t, AuthService.getStoredRefreshToken ls = Some r /\ r <> ""
                 /\ Storage.getItem REFRESH_EXPIRES_AT ls = Some e
                 /\ IsoDate.parse e = Some t /\ Scenario.now < t)
  /\ AuthService.getStoredAccessToken ls = None
  /\ AuthService.isAuthenticated (H := IsoDate.date) Scenario.now ls = false
  /\ ~ (AuthService.isAuthenticated (H := IsoDate.date) Scenario.now ls = true
        <-> exists r e t, AuthService.getStoredRefreshToken ls = Some r /\ r <> ""
                 /\ Storage.getItem REFRESH_EXPIRES_AT ls = Some e
                 /\ IsoDate.parse e = Some t /\ Scenario.now < t).
Proof.
  assert (Hrhs : exists r e t,
             AuthService.getStoredRefreshToken Scenario.refresh_only = Some r /\ r <> ""
             /\ Storage.getItem REFRESH_EXPIRES_AT Scenario.refresh_only = Some e
             /\ IsoDate.parse e = Some t /\ Scenario.now < t).
  { exists "refresh-1", Scenario.in_a_week, 1794139200000.
    repeat split; try reflexivity. discriminate. }
  cbv zeta. split; [exact Hrhs |]. split; [reflexivity |]. split; [reflexivity |].
  intros [_ Hback]. specialize (Hback Hrhs). discriminate Hback.
Qed.

(** Witness of [isAuthenticated_iff]: the stale store, whose refresh token
    has a week left. *)
Lemma isAuthenticated_iff_witness :
  AuthService.isAuthenticated (H := IsoDate.date) Scenario.now Scenario.stale = true
  <-> truthy (AuthService.getStoredAccessToken Scenario.stale) = true
      /\ truthy (AuthService.getStoredRefreshToken Scenario.stale) = true
      /\ exists e t, Storage.getItem REFRESH_EXPIRES_AT Scenario.stale = Some e
                     /\ Date_parse (JSDate := IsoDate.date) e = Some t /\ Scenario.now < t.
Proof.
  apply (isAuthenticated_iff (H := IsoDate.date) Scenario.now Scenario.stale).
  intros e He Hne. vm_compute in He. injection He as <-. vm_compute. eauto.
Defined.

(** ** [getValidAccessToken] *)

Section GetValidAccessToken.

Context `{Env}.
Import AuthService.

Arguments isAccessTokenExpired : simpl never.
Arguments isRefreshTokenExpired : simpl never.
Arguments getStoredAccessToken : simpl never.
Arguments getStoredRefreshToken : simpl never.
Arguments truthy : simpl never.

Lemma truthy_inv (v : option string) :
  truthy v = true -> exists s, v = Some s /\ truthy (Some s) = true.
Proof.
  destruct v as [s|]; [| discriminate].
  intros Hs. exists s. split; [reflexivity | exact Hs].
Qed.

(** A token is missing: null, nothing sent, nothing touched. *)
Lemma getValidAccessToken_missing (now : Z) (w : World) :
  truthy (getStoredAccessToken (localStorage w)) = false
  \/ truthy (getStoredRefreshToken (localStorage w)) = false ->
  getValidAccessToken now w = (Return None, w).
Proof.
  unfold getValidAccessToken, bind, gets. simpl.
  destruct (getStoredAccessToken (localStorage w)) as [a|];
    destruct (getStoredRefreshToken (localStorage w)) as [r|]; simpl;
    try reflexivity.
  intros [Ha | Hr].
  - rewrite Ha. reflexivity.
  - rewrite Hr, orb_true_r. reflexivity.
Qed.

(** Both tokens stored, the access token not expired: it is returned. *)
Lemma getValidAccessToken_fresh (now : Z) (w : World) (a : string) :
  getStoredAccessToken (localStorage w) = Some a ->
  truthy (Some a) = true ->
  truthy (getStoredRefreshToken (localStorage w)) = true ->
  isAccessTokenExpired now (localStorage w) = false ->
  getValidAccessToken now w = (Return (Some a), w).
Proof.
  intros Ha Hta Htr Hexp. apply truthy_inv in Htr as (r & Hr & Hre).
  unfold getValidAccessToken, bind, gets. simpl.
  rewrite Ha, Hr. simpl. rewrite Hta, Hre. simpl. rewrite Hexp. reflexivity.
Qed.

(** Both tokens stored and both expired: purge and null. *)
Lemma getValidAccessToken_lapsed (now : Z) (w : World) :
  truthy (getStoredAccessToken (localStorage w)) = true ->
  truthy (getStoredRefreshToken (localStorage w)) = true ->
  isAccessTokenExpired now (localStorage w) = true ->
  isRefreshTokenExpired now (localStorage w) = true ->
  getValidAccessToken now w = (Return None, after_purge w).
Proof.
  intros Hta Htr Hexp Hrexp.
  apply truthy_inv in Hta as (a & Ha & Hae).
  apply truthy_inv in Htr as (r & Hr & Hre).
  unfold getValidAccessToken, bind, gets, modify. simpl.
  rewrite Ha, Hr. simpl. rewrite Hae, Hre. simpl.
  rewrite Hexp. simpl. rewrite Hrexp. reflexivity.
Qed.

(** Both tokens stored, the access token expired, the refresh token not:
    one refresh request is sent, and the outcome follows the answer. *)
Lemma getValidAccessToken_refresh (now : Z) (w : World) (r : string) :
  truthy (getStoredAccessToken (localStorage w)) = true ->
  getStoredRefreshToken (localStorage w) = Some r ->
  truthy (Some r) = true ->
  isAccessTokenExpired now (localStorage w) = true ->
  isRefreshTokenExpired now (localStorage w) = false ->
  getValidAccessToken now w =
    match server (requests w) (refreshRequest r) with
    | Some response =>
        if ok response then
          match json response with
          | Some j =>
              (Return (Some (access (asRefreshTokenResponse j))),
               after_refresh w r (asRefreshTokenResponse j))
          | None => (Return None, after_failed_refresh w r JsonSyntaxError)
          end
        else
          (Return None,
           after_failed_refresh w r
             (errorThrown (Response_errorData response) (status response)))
    | None => (Return None, after_failed_refresh w r FetchFailed)
    end.
Proof.
  intros Hta Hr Htr Hexp Hrexp.
  apply truthy_inv in Hta as (a & Ha & Hae).
  unfold getValidAccessToken, bind, gets, modify, try_catch. simpl.
  rewrite Ha, Hr. simpl. rewrite Hae, Htr. simpl.
  rewrite Hexp. simpl. rewrite Hrexp. simpl.
  unfold refreshToken, bind, fetch, handleResponse, Response_json.
  destruct (server (requests w) (refreshRequest r)) as [response|]; [| reflexivity].
  destruct (ok response); simpl; [| reflexivity].
  destruct (json response) as [j|]; reflexivity.
Qed.

(** C7.  Both tokens stored and the access expiry strictly in the
    future: the stored access token is returned, no request is sent and
    the world, the store with it, is as it was. *)
Theorem fresh_access_token_returned (now : Z) (w : World) (a e : string) (t : Z) :
  getStoredAccessToken (localStorage w) = Some a ->
  truthy (Some a) = true ->
  truthy (getStoredRefreshToken (localStorage w)) = true ->
  Storage.getItem ACCESS_EXPIRES_AT (localStorage w) = Some e ->
  Date_parse e = Some t ->
  now < t ->
  fst (getValidAccessToken now w) = Return (Some a)
  /\ requests (snd (getValidAccessToken now w)) = requests w
  /\ localStorage (snd (getValidAccessToken now w)) = localStorage w
  /\ snd (getValidAccessToken now w) = w.
Proof.
  intros Ha Hta Htr He Ht Hlt.
  rewrite (getValidAccessToken_fresh now w a Ha Hta Htr).
  - repeat split; reflexivity.
  - unfold isAccessTokenExpired. rewrite He.
    apply (expiredOrMissing_future now e t Ht Hlt).
Qed.

(** C9.  The access token or the refresh token is missing (null, or the
    empty string, which the code treats alike): null is returned at once,
    no request is sent and nothing is written or purged, also when the
    refresh token is there and not expired. *)
Theorem missing_token_returns_null (now : Z) (w : World) :
  truthy (getStoredAccessToken (localStorage w)) = false
  \/ truthy (getStoredRefreshToken (localStorage w)) = false ->
  fst (getValidAccessToken now w) = Return None
  /\ requests (snd (getValidAccessToken now w)) = requests w
  /\ localStorage (snd (getValidAccessToken now w)) = localStorage w
  /\ snd (getValidAccessToken now w) = w.
Proof.
  intros Hmissing. rewrite (getValidAccessToken_missing now w Hmissing).
  repeat split; reflexivity.
Qed.

(** C1.  The access token is stored and expired, the refresh token is
    stored and not expired: exactly one request is sent, the [POST] to
    [/auth/token/refresh/] whose body is the stored refresh token and
    which carries no [Authorization] header; and when the server answers
    it with an ok status and a JSON body, the access token of that body is
    returned, the stored access token and access expiry are those of the
    body, and the refresh token, the refresh expiry and every other key
    are as before. *)
Theorem stale_access_token_refreshed (now : Z) (w : World) (r : string) :
  truthy (getStoredAccessToken (localStorage w)) = true ->
  getStoredRefreshToken (localStorage w) = Some r ->
  truthy (Some r) = true ->
  isAccessTokenExpired now (localStorage w) = true ->
  isRefreshTokenExpired now (localStorage w) = false ->
  requests (snd (getValidAccessToken now w))
  = (requests w
     ++ [mkRequest "http://127.0.0.1:8000/api/v1/accounts/auth/token/refresh/" "POST"
           [("Content-Type", "application/json")] (Some [("refresh", r)])])%list
  /\ forall response j,
       server (requests w)
         (mkRequest "http://127.0.0.1:8000/api/v1/accounts/auth/token/refresh/" "POST"
            [("Content-Type", "application/json")] (Some [("refresh", r)]))
       = Some response ->
       ok response = true ->
       json response = Some j ->
       let ls' := localStorage (snd (getValidAccessToken now w)) in
       fst (getValidAccessToken now w) = Return (Some (access (asRefreshTokenResponse j)))
       /\ getStoredAccessToken ls' = Some (access (asRefreshTokenResponse j))
       /\ Storage.getItem ACCESS_EXPIRES_AT ls'
           = Some (access_expires_at (asRefreshTokenResponse j))
       /\ getStoredRefreshToken ls' = Some r
       /\ Storage.getItem REFRESH_EXPIRES_AT ls'
           = Storage.getItem REFRESH_EXPIRES_AT (localStorage w)
       /\ forall k, k <> ACCESS_TOKEN -> k <> ACCESS_EXPIRES_AT ->
                    ls' !! k = localStorage w !! k.
Proof.
  intros Hta Hr Htr Hexp Hrexp.
  change (mkRequest "http://127.0.0.1:8000/api/v1/accounts/auth/token/refresh/" "POST"
            [("Content-Type", "application/json")] (Some [("refresh", r)]))
    with (refreshRequest r).
  rewrite (getValidAccessToken_refresh now w r Hta Hr Htr Hexp Hrexp).
  split.
  - destruct (server (requests w) (refreshRequest r)) as [response|]; [| reflexivity].
    destruct (ok response); [| reflexivity].
    destruct (json response); reflexivity.
  - intros response j Hresp Hok Hj. rewrite Hresp, Hok, Hj. cbv zeta. simpl.
    apply expiredOrMissing_false in Hrexp as (e & He & _ & _).
    unfold getStoredAccessToken, getStoredRefreshToken, Storage.getItem in *.
    rewrite He. simpl.
    repeat split; rewrite ?storeTokens_lookup; simpl; trivial.
    intros k Hk1 Hk2. rewrite storeTokens_lookup.
    repeat case_decide; subst; congruence.
Qed.

(** C4, amended.  Both tokens are stored, the access token is expired and
    the refresh expiry has passed (or is missing): null is returned, no
    request is sent, and the four credential fields and the cached user
    profile are removed. *)
Theorem lapsed_refresh_token_purges (now : Z) (w : World) :
  truthy (getStoredAccessToken (localStorage w)) = true ->
  truthy (getStoredRefreshToken (localStorage w)) = true ->
  isAccessTokenExpired now (localStorage w) = true ->
  isRefreshTokenExpired now (localStorage w) = true ->
  fst (getValidAccessToken now w) = Return None
  /\ requests (snd (getValidAccessToken now w)) = requests w
  /\ purged (localStorage (snd (getValidAccessToken now w)))
  /\ forall k, k <> ACCESS_TOKEN -> k <> REFRESH_TOKEN -> k <> ACCESS_EXPIRES_AT ->
               k <> REFRESH_EXPIRES_AT -> k <> USER_DATA ->
               localStorage (snd (getValidAccessToken now w)) !! k = localStorage w !! k.
Proof.
  intros Hta Htr Hexp Hrexp.
  rewrite (getValidAccessToken_lapsed now w Hta Htr Hexp Hrexp). simpl.
  repeat split; try apply purge_purged.
  intros k H1 H2 H3 H4 H5. rewrite removeUser_lookup, removeTokens_lookup.
  repeat case_decide; try reflexivity; exfalso; intuition congruence.
Qed.

(** C6, amended.  A token that [getValidAccessToken] returns is either
    the stored access token, returned with the world untouched, whose
    stored expiry is a non-empty string that, when it is a date, lies
    strictly after [now]; or the access token of an ok refresh response,
    stored with the [access_expires_at] of that response, which is not
    compared with the clock. *)
Theorem returned_token_origin (now : Z) (w : World) (tok : string) :
  fst (getValidAccessToken now w) = Return (Some tok) ->
  (getStoredAccessToken (localStorage w) = Some tok
   /\ snd (getValidAccessToken now w) = w
   /\ exists e, Storage.getItem ACCESS_EXPIRES_AT (localStorage w) = Some e
                /\ e <> ""
                /\ forall t, Date_parse e = Some t -> now < t)
  \/ (exists r response j,
        getStoredRefreshToken (localStorage w) = Some r
        /\ server (requests w) (refreshRequest r) = Some response
        /\ ok response = true
        /\ json response = Some j
        /\ tok = access (asRefreshTokenResponse j)
        /\ snd (getValidAccessToken now w) = after_refresh w r (asRefreshTokenResponse j)
        /\ Storage.getItem ACCESS_EXPIRES_AT (localStorage (snd (getValidAccessToken now w)))
            = Some (access_expires_at (asRefreshTokenResponse j))).
Proof.
  destruct (truthy (getStoredAccessToken (localStorage w))) eqn:Hta;
    [| rewrite getValidAccessToken_missing by (left; exact Hta); discriminate].
  destruct (truthy (getStoredRefreshToken (localStorage w))) eqn:Htr;
    [| rewrite getValidAccessToken_missing by (right; exact Htr); discriminate].
  pose proof (truthy_inv _ Hta) as (a & Ha & Hta').
  pose proof (truthy_inv _ Htr) as (r & Hr & Htr').
  destruct (isAccessTokenExpired now (localStorage w)) eqn:Hexp.
  - destruct (isRefreshTokenExpired now (localStorage w)) eqn:Hrexp.
    + rewrite (getValidAccessToken_lapsed now w Hta Htr Hexp Hrexp). discriminate.
    + rewrite (getValidAccessToken_refresh now w r Hta Hr Htr' Hexp Hrexp).
      destruct (server (requests w) (refreshRequest r)) as [response|] eqn:Hresp;
        [| discriminate].
      destruct (ok response) eqn:Hok; [| discriminate].
      destruct (json response) as [j|] eqn:Hj; [| discriminate].
      simpl. intros Htok. injection Htok as <-. right.
      exists r, response, j. repeat split; trivial.
      unfold Storage.getItem. rewrite storeTokens_lookup. reflexivity.
  - rewrite (getValidAccessToken_fresh now w a Ha Hta' Htr Hexp). simpl.
    intros Htok. injection Htok as <-. left. repeat split; trivial.
    apply expiredOrMissing_false in Hexp. exact Hexp.
Qed.

End GetValidAccessToken.

(** *** On the concrete stores *)

(** Witness of [fresh_access_token_returned]: the fresh store. *)
Lemma fresh_access_token_returned_witness :
  fst (AuthService.getValidAccessToken (H := Scenario.backend_up) Scenario.now
         (Scenario.page Scenario.fresh)) = Return (Some "access-1")
  /\ requests (snd (AuthService.getValidAccessToken (H := Scenario.backend_up) Scenario.now
                      (Scenario.page Scenario.fresh))) = []
  /\ localStorage (snd (AuthService.getValidAccessToken (H := Scenario.backend_up) Scenario.now
                          (Scenario.page Scenario.fresh))) = Scenario.fresh
  /\ snd (AuthService.getValidAccessToken (H := Scenario.backend_up) Scenario.now
            (Scenario.page Scenario.fresh)) = Scenario.page Scenario.fresh.
Proof.
  apply (fresh_access_token_returned (H := Scenario.backend_up) Scenario.now
           (Scenario.page Scenario.fresh) "access-1" Scenario.in_an_hour 1793538000000);
    reflexivity.
Defined.

(** Witness of [missing_token_returns_null]: a refresh token with a week
    left, its expiry and the cached profile, and no access token; all of
    them are still there afterwards. *)
Lemma missing_token_returns_null_witness :
  fst (AuthService.getValidAccessToken (H := Scenario.backend_up) Scenario.now
         (Scenario.page Scenario.refresh_only)) = Return None
  /\ requests (snd (AuthService.getValidAccessToken (H := Scenario.backend_up) Scenario.now
                      (Scenario.page Scenario.refresh_only))) = []
  /\ localStorage (snd (AuthService.getValidAccessToken (H := Scenario.backend_up) Scenario.now
                          (Scenario.page Scenario.refresh_only))) = Scenario.refresh_only
  /\ snd (AuthService.getValidAccessToken (H := Scenario.backend_up) Scenario.now
            (Scenario.page Scenario.refresh_only)) = Scenario.page Scenario.refresh_only.
Proof.
  apply (missing_token_returns_null (H := Scenario.backend_up) Scenario.now
           (Scenario.page Scenario.refresh_only)).
  left. reflexivity.
Defined.

(** Witness of [stale_access_token_refreshed]: the stale store, the backend
    answering the refresh. *)
Lemma stale_access_token_refreshed_witness :
  requests (snd (AuthService.getValidAccessToken (H := Scenario.backend_up) Scenario.now
                   (Scenario.page Scenario.stale)))
  = [mkRequest "http://127.0.0.1:8000/api/v1/accounts/auth/token/refresh/" "POST"
       [("Content-Type", "application/json")] (Some [("refresh", "refresh-1")])]
  /\ fst (AuthService.getValidAccessToken (H := Scenario.backend_up) Scenario.now
            (Scenario.page Scenario.stale)) = Return (Some "access-2")
  /\ AuthService.getStoredRefreshToken
       (localStorage (snd (AuthService.getValidAccessToken (H := Scenario.backend_up)
                             Scenario.now (Scenario.page Scenario.stale))))
     = Some "refresh-1".
Proof.
  destruct (stale_access_token_refreshed (H := Scenario.backend_up) Scenario.now
              (Scenario.page Scenario.stale) "refresh-1"
              eq_refl eq_refl eq_refl eq_refl eq_refl) as [Hsent Hanswered].
  destruct (Hanswered (mkResponse 200 (Some Scenario.refreshed)) Scenario.refreshed
              eq_refl eq_refl eq_refl) as (Hret & _ & _ & Hrefresh & _).
  split; [exact Hsent |]. split; [exact Hret | exact Hrefresh].
Defined.

(** Witness of [lapsed_refresh_token_purges]: the store whose two tokens
    ran out. *)
Lemma lapsed_refresh_token_purges_witness :
  fst (AuthService.getValidAccessToken (H := Scenario.backend_up) Scenario.now
         (Scenario.page Scenario.lapsed)) = Return None
  /\ requests (snd (AuthService.getValidAccessToken (H := Scenario.backend_up) Scenario.now
                      (Scenario.page Scenario.lapsed))) = []
  /\ purged (localStorage (snd (AuthService.getValidAccessToken (H := Scenario.backend_up)
                                  Scenario.now (Scenario.page Scenario.lapsed)))).
Proof.
  destruct (lapsed_refresh_token_purges (H := Scenario.backend_up) Scenario.now
              (Scenario.page Scenario.lapsed) eq_refl eq_refl eq_refl eq_refl)
    as (Hret & Hsent & Hpurged & _).
  split; [exact Hret |]. split; [exact Hsent | exact Hpurged].
Defined.

(** C4, as the specification states it, fails: on the store whose refresh
    token ran out an hour ago while the access token has an hour left,
    [getValidAccessToken] returns the access token and removes nothing. *)
Lemma expired_refresh_token_alone_does_not_purge :
  let w := Scenario.page Scenario.refresh_lapsed_first in
  let out := AuthService.getValidAccessToken (H := Scenario.backend_up) Scenario.now w in
  (AuthService.getStoredRefreshToken (localStorage w) = Some "refresh-1"
   /\ Storage.getItem REFRESH_EXPIRES_AT (localStorage w) = Some Scenario.an_hour_ago
   /\ IsoDate.parse Scenario.an_hour_ago = Some 1793530800000
   /\ 1793530800000 <= Scenario.now)
  /\ AuthService.isRefreshTokenExpired (H := IsoDate.date) Scenario.now (localStorage w) = true
  /\ out = (Return (Some "access-1"), w)
  /\ ~ (fst out = Return None /\ purged (localStorage (snd out))).
Proof.
  cbv zeta. split; [| split; [| split]].
  - repeat split; try reflexivity. discriminate.
  - reflexivity.
  - reflexivity.
  - intros [Hret _]. discriminate Hret.
Qed.

(** Witness of [returned_token_origin]: the token returned on the stale
    store is the one the backend sent. *)
Lemma returned_token_origin_witness :
  (AuthService.getStoredAccessToken (localStorage (Scenario.page Scenario.stale))
   = Some "access-2"
   /\ snd (AuthService.getValidAccessToken (H := Scenario.backend_up) Scenario.now
             (Scenario.page Scenario.stale)) = Scenario.page Scenario.stale
   /\ exists e, Storage.getItem ACCESS_EXPIRES_AT (localStorage (Scenario.page Scenario.stale))
                = Some e
                /\ e <> ""
                /\ forall t, Date_parse (JSDate := IsoDate.date) e = Some t -> Scenario.now < t)
  \/ (exists r response j,
        AuthService.getStoredRefreshToken (localStorage (Scenario.page Scenario.stale)) = Some r
        /\ server (Env := Scenario.backend_up) (requests (Scenario.page Scenario.stale))
             (AuthService.refreshRequest r) = Some response
        /\ ok response = true
        /\ json response = Some j
        /\ "access-2" = access (asRefreshTokenResponse (Env := Scenario.backend_up) j)
        /\ snd (AuthService.getValidAccessToken (H := Scenario.backend_up) Scenario.now
                  (Scenario.page Scenario.stale))
           = after_refresh (Scenario.page Scenario.stale) r
               (asRefreshTokenResponse (Env := Scenario.backend_up) j)
        /\ Storage.getItem ACCESS_EXPIRES_AT
             (localStorage (snd (AuthService.getValidAccessToken (H := Scenario.backend_up)
                                   Scenario.now (Scenario.page Scenario.stale))))
           = Some (access_expires_at (asRefreshTokenResponse (Env := Scenario.backend_up) j))).
Proof.
  apply (returned_token_origin (H := Scenario.backend_up) Scenario.now
           (Scenario.page Scenario.stale) "access-2").
  reflexivity.
Defined.

(** C6, as the specification states it, fails: on the stale store, with a
    backend that answers the refresh with a token whose [access_expires_at]
    is an hour in the past, [getValidAccessToken] returns that token, and
    the expiry stored with it is not in the future. *)
Lemma refreshed_token_may_be_expired :
  let w := Scenario.page Scenario.stale in
  let out := AuthService.getValidAccessToken (H := Scenario.backend_backdating) Scenario.now w in
  fst out = Return (Some "access-2")
  /\ AuthService.getStoredAccessToken (localStorage (snd out)) = Some "access-2"
  /\ Storage.getItem ACCESS_EXPIRES_AT (localStorage (snd out)) = Some Scenario.an_hour_ago
  /\ IsoDate.parse Scenario.an_hour_ago = Some 1793530800000
  /\ 1793530800000 <= Scenario.now
  /\ AuthService.isAccessTokenExpired (H := IsoDate.date) Scenario.now (localStorage (snd out))
     = true
  /\ ~ (exists e t, Storage.getItem ACCESS_EXPIRES_AT (localStorage (snd out)) = Some e
                    /\ IsoDate.parse e = Some t /\ Scenario.now < t).
Proof.
  cbv zeta. repeat split; try reflexivity; try discriminate.
  intros (e & t & He & Ht & Hlt).
  vm_compute in He. injection He as <-.
  vm_compute in Ht. injection Ht as <-.
  vm_compute in Hlt. discriminate Hlt.
Qed.

(** ** Authentication-rejection responses *)

Section Rejections.

Context `{Env}.

(** [ApiClient.handleResponse] on a 401: the four credential fields and
    the cached profile are removed and the page is sent to the entry
    point before the error is thrown. *)
Lemma ApiClient_handleResponse_401 (response : Response Json) (w : World) :
  status response = 401 ->
  ApiClient.handleResponse response w
  = (Throw (Error "Authentication required. Please login again."),
     set_location_href "/" (after_purge w)).
Proof.
  intros Hstatus. unfold ApiClient.handleResponse, ok. rewrite Hstatus. reflexivity.
Qed.

(** [AuthService.handleResponse] never writes: whatever the response, the
    world is as before. *)
Lemma AuthService_handleResponse_keeps_world (response : Response Json) (w : World) :
  snd (AuthService.handleResponse response w) = w.
Proof.
  unfold AuthService.handleResponse, Response_json.
  destruct (negb (ok response)); [reflexivity |].
  destruct (json response); reflexivity.
Qed.

(** [AuthService.handleResponse] on a 401: the error is thrown with the
    message found in the body, or the status. *)
Lemma AuthService_handleResponse_401 (response : Response Json) (w : World) :
  status response = 401 ->
  AuthService.handleResponse response w
  = (Throw (errorThrown (Response_errorData response) 401), w).
Proof.
  intros Hstatus. unfold AuthService.handleResponse, ok. rewrite Hstatus. reflexivity.
Qed.

End Rejections.

(** C3 fails on the requests that [AuthService] itself sends with a bearer
    token.  [getProfile] with the stored access token, answered by a 401:
    the error is thrown and the four credential fields and the cached
    profile are all still stored, where [ApiClient], given the same answer
    on the same store, removes them. *)
Theorem AuthService_401_keeps_credentials :
  let w := Scenario.page Scenario.fresh in
  let out := AuthService.getProfile (H := Scenario.backend_rejecting) "access-1" w in
  let sibling := ApiClient.delete (H := Scenario.backend_rejecting) ApiClient.fleetApi
                   Scenario.now "/trainsets/3/" w in
  fst out = Throw (Error "HTTP error! status: 401")
  /\ localStorage (snd out) = Scenario.fresh
  /\ localStorage (snd out) !! ACCESS_TOKEN = Some "access-1"
  /\ localStorage (snd out) !! REFRESH_TOKEN = Some "refresh-1"
  /\ localStorage (snd out) !! ACCESS_EXPIRES_AT = Some Scenario.in_an_hour
  /\ localStorage (snd out) !! REFRESH_EXPIRES_AT = Some Scenario.in_a_week
  /\ localStorage (snd out) !! USER_DATA = Some Scenario.user_json
  /\ ~ purged (localStorage (snd out))
  /\ fst sibling = Throw (Error "Authentication required. Please login again.")
  /\ purged (localStorage (snd sibling)).
Proof.
  cbv zeta. repeat split; try reflexivity.
  intros (Hacc & _). discriminate Hacc.
Qed.

(** ** Background revalidation *)

Section Revalidation.

Import AuthInterceptor.

(** Without a token, or when not authenticated, the effect sets no timer
    and returns no cleanup. *)
Lemma effect_without_session (ctx : AuthContext) (p : Page) :
  truthy (token ctx) = false \/ isAuthenticated ctx = false ->
  effect ctx p = (Return None, p).
Proof.
  unfold effect. intros [Htok | Hauth].
  - rewrite Htok. reflexivity.
  - rewrite Hauth, orb_true_r. reflexivity.
Qed.




End Revalidation.



(** * Further properties of the code *)

(** ** How the store operations compose *)

Section StoreComposition.

Import AuthService.

(** X1.  The last [storeTokens] wins, whatever was stored before, also over
    an earlier [removeTokens]; and [removeTokens] undoes a [storeTokens]
    and is idempotent. *)
Theorem storeTokens_last_write_wins (a r ae re a' r' ae' re' : string)
    (ls : gmap string string) :
  storeTokens a' r' ae' re' (storeTokens a r ae re ls) = storeTokens a' r' ae' re' ls
  /\ storeTokens a r ae re (removeTokens ls) = storeTokens a r ae re ls
  /\ removeTokens (storeTokens a r ae re ls) = removeTokens ls
  /\ removeTokens (removeTokens ls) = removeTokens ls.
Proof.
  repeat split; apply map_eq; intros k;
    rewrite ?storeTokens_lookup, ?removeTokens_lookup, ?storeTokens_lookup,
      ?removeTokens_lookup;
    repeat case_decide; try reflexivity; exfalso; intuition congruence.
Qed.

(** X2.  [removeTokens] and [storeTokens] leave the cached user profile and
    every key other than the four credential keys as they were; [removeUser]
    leaves every key other than the profile as it was; so the two removals
    commute, and the profile outlives a [removeTokens] that is not followed
    by [removeUser]. *)
Theorem token_operations_frame (a r ae re : string) (ls : gmap string string) :
  (forall k, k <> ACCESS_TOKEN -> k <> REFRESH_TOKEN -> k <> ACCESS_EXPIRES_AT ->
             k <> REFRESH_EXPIRES_AT ->
             removeTokens ls !! k = ls !! k /\ storeTokens a r ae re ls !! k = ls !! k)
  /\ removeTokens ls !! USER_DATA = ls !! USER_DATA
  /\ storeTokens a r ae re ls !! USER_DATA = ls !! USER_DATA
  /\ (forall k, k <> USER_DATA -> removeUser ls !! k = ls !! k)
  /\ getStoredAccessToken (removeUser ls) = getStoredAccessToken ls
  /\ getStoredRefreshToken (removeUser ls) = getStoredRefreshToken ls
  /\ removeUser (removeTokens ls) = removeTokens (removeUser ls).
Proof.
  split; [| split; [| split; [| split; [| split; [| split]]]]].
  - intros k H1 H2 H3 H4. rewrite removeTokens_lookup, storeTokens_lookup.
    repeat case_decide; try (split; reflexivity); exfalso; intuition congruence.
  - rewrite removeTokens_lookup. reflexivity.
  - rewrite storeTokens_lookup. reflexivity.
  - intros k Hk. rewrite removeUser_lookup. case_decide; congruence.
  - unfold getStoredAccessToken, Storage.getItem. rewrite removeUser_lookup. reflexivity.
  - unfold getStoredRefreshToken, Storage.getItem. rewrite removeUser_lookup. reflexivity.
  - apply map_eq. intros k.
    rewrite !removeUser_lookup, !removeTokens_lookup, removeUser_lookup.
    repeat case_decide; reflexivity.
Qed.

End StoreComposition.

(** ** Expiry and the passing of time *)

Section ExpiryInTime.

Context `{JSDate}.
Import AuthService.

Lemma expiredOrMissing_monotone (now now' : Z) (v : option string) :
  now <= now' -> expiredOrMissing now v = true -> expiredOrMissing now' v = true.
Proof.
  intros Hle. destruct v as [e|]; simpl; [| trivial].
  destruct (negb (String.eqb e "")); [| trivial].
  unfold isTokenExpired. destruct (Date_parse e) as [t|]; [| trivial].
  rewrite !Z.leb_le. lia.
Qed.

(** X3.  Time only expires tokens: a token expired at [now] is expired at
    every later instant, and a store that [isAuthenticated] at a later
    instant was authenticated at every earlier one. *)
Theorem expiry_is_monotone (now now' : Z) (ls : gmap string string) :
  now <= now' ->
  (isAccessTokenExpired now ls = true -> isAccessTokenExpired now' ls = true)
  /\ (isRefreshTokenExpired now ls = true -> isRefreshTokenExpired now' ls = true)
  /\ (isAuthenticated now' ls = true -> isAuthenticated now ls = true).
Proof.
  intros Hle. split; [| split].
  - apply expiredOrMissing_monotone. exact Hle.
  - apply expiredOrMissing_monotone. exact Hle.
  - unfold isAuthenticated. rewrite !andb_true_iff, !negb_true_iff.
    intros [Htokens Hlater]. split; [exact Htokens |].
    destruct (isRefreshTokenExpired now ls) eqn:Hnow; [| reflexivity].
    apply (expiredOrMissing_monotone now now' _ Hle) in Hnow.
    unfold isRefreshTokenExpired in Hlater. congruence.
Qed.

End ExpiryInTime.

(** Witness of [expiry_is_monotone]: the stale store, now and a week and a
    day later. *)
Lemma expiry_is_monotone_witness :
  (AuthService.isAccessTokenExpired (H := IsoDate.date) Scenario.now Scenario.stale = true ->
   AuthService.isAccessTokenExpired (H := IsoDate.date) (Scenario.now + 691200000)
     Scenario.stale = true)
  /\ (AuthService.isRefreshTokenExpired (H := IsoDate.date) Scenario.now Scenario.stale = true ->
      AuthService.isRefreshTokenExpired (H := IsoDate.date) (Scenario.now + 691200000)
        Scenario.stale = true)
  /\ (AuthService.isAuthenticated (H := IsoDate.date) (Scenario.now + 691200000)
        Scenario.stale = true ->
      AuthService.isAuthenticated (H := IsoDate.date) Scenario.now Scenario.stale = true).
Proof.
  apply (expiry_is_monotone (H := IsoDate.date) Scenario.now (Scenario.now + 691200000)
           Scenario.stale).
  vm_compute. discriminate.
Defined.

(** ** Responses and endpoint methods of [AuthService] *)

Section Responses.

Context `{Env}.

Lemma ok_range (response : Response Json) :
  ok response = true <-> 200 <= status response <= 299.
Proof. unfold ok. rewrite andb_true_iff, !Z.leb_le. reflexivity. Qed.

Lemma AuthService_handleResponse_failed (response : Response Json) (w : World) :
  ~ 200 <= status response <= 299 ->
  AuthService.handleResponse response w
  = (Throw (errorThrown (Response_errorData response) (status response)), w).
Proof.
  intros Hrange. unfold AuthService.handleResponse.
  destruct (ok response) eqn:Hok; [| reflexivity].
  apply ok_range in Hok. contradiction.
Qed.

(** X4.  For a failed response whose body is JSON and not [null],
    [AuthService.handleResponse] throws an [Error] whose message is
    [String()] of the first truthy one of the body's [error], [message]
    and [detail], in this order (the empty message for [error: []]), and
    the text ["HTTP error! status: "] followed by the status when none of
    the three is truthy; when [String()] throws on the field chosen, the
    [TypeError] is what is thrown. *)
Theorem errorMessage_priority (response : Response Json) (w : World) (j : Json)
    (fields : ErrorData) :
  ~ 200 <= status response <= 299 ->
  json response = Some j ->
  asErrorData j = Some fields ->
  (forall text, error_field fields = Truthy text ->
     fst (AuthService.handleResponse response w) = Throw (Error text))
  /\ (forall text, error_field fields = Falsy -> message_field fields = Truthy text ->
        fst (AuthService.handleResponse response w) = Throw (Error text))
  /\ (forall text, error_field fields = Falsy -> message_field fields = Falsy ->
        detail_field fields = Truthy text ->
        fst (AuthService.handleResponse response w) = Throw (Error text))
  /\ (error_field fields = Falsy -> message_field fields = Falsy ->
      detail_field fields = Falsy ->
      fst (AuthService.handleResponse response w)
      = Throw (Error ("HTTP error! status: " ++ pretty (status response))))
  /\ (error_field fields = Unprintable
      \/ (error_field fields = Falsy /\ message_field fields = Unprintable)
      \/ (error_field fields = Falsy /\ message_field fields = Falsy
          /\ detail_field fields = Unprintable) ->
      fst (AuthService.handleResponse response w) = Throw TypeError).
Proof.
  intros Hrange Hj Hfields.
  rewrite (AuthService_handleResponse_failed response w Hrange).
  unfold Response_errorData. rewrite Hj, Hfields. unfold errorThrown, errorMessage. simpl.
  split; [| split; [| split; [| split]]].
  - intros text He. rewrite He. reflexivity.
  - intros text He Hm. rewrite He, Hm. reflexivity.
  - intros text He Hm Hd. rewrite He, Hm, Hd. reflexivity.
  - intros He Hm Hd. rewrite He, Hm, Hd. reflexivity.
  - intros [He | [[He Hm] | (He & Hm & Hd)]].
    + rewrite He. reflexivity.
    + rewrite He, Hm. reflexivity.
    + rewrite He, Hm, Hd. reflexivity.
Qed.

(** X5.  [AuthService.handleResponse] never writes; it returns the body
    exactly when the status is in 200-299 and the body is JSON; a response
    in 200-299 whose body is not JSON (an empty 204, say) is rejected like
    a failure, with the error of [json()]; a response with any other status
    never resolves: it throws, the [Error] with the status text when the
    body is not JSON, a [TypeError] when the body is the JSON [null]. *)
Theorem AuthService_handleResponse_outcome (response : Response Json) (w : World) :
  snd (AuthService.handleResponse response w) = w
  /\ (forall j, fst (AuthService.handleResponse response w) = Return j
                <-> 200 <= status response <= 299 /\ json response = Some j)
  /\ (200 <= status response <= 299 -> json response = None ->
      fst (AuthService.handleResponse response w) = Throw JsonSyntaxError)
  /\ (~ 200 <= status response <= 299 ->
      exists e, fst (AuthService.handleResponse response w) = Throw e)
  /\ (~ 200 <= status response <= 299 -> json response = None ->
      fst (AuthService.handleResponse response w)
      = Throw (Error ("HTTP error! status: " ++ pretty (status response))))
  /\ (~ 200 <= status response <= 299 ->
      forall j, json response = Some j -> asErrorData j = None ->
                fst (AuthService.handleResponse response w) = Throw TypeError).
Proof.
  split; [apply AuthService_handleResponse_keeps_world |].
  split; [| split; [| split; [| split]]].
  - intros j. unfold AuthService.handleResponse, Response_json.
    destruct (ok response) eqn:Hokb; simpl.
    + assert (Hrange : 200 <= status response <= 299) by (apply ok_range; exact Hokb).
      destruct (json response) as [j'|]; simpl.
      * split; [intros Hj; injection Hj as ->; auto | intros [_ Hj]; congruence].
      * split; [discriminate | intros [_ Hj]; discriminate].
    + split; [discriminate |].
      intros [Hin _]. apply ok_range in Hin. congruence.
  - intros Hrange Hj. apply ok_range in Hrange.
    unfold AuthService.handleResponse, Response_json. rewrite Hrange, Hj. reflexivity.
  - intros Hrange. rewrite (AuthService_handleResponse_failed response w Hrange).
    eexists. reflexivity.
  - intros Hrange Hj. rewrite (AuthService_handleResponse_failed response w Hrange).
    unfold Response_errorData. rewrite Hj. reflexivity.
  - intros Hrange j Hj Hnull.
    rewrite (AuthService_handleResponse_failed response w Hrange).
    unfold Response_errorData. rewrite Hj, Hnull. reflexivity.
Qed.

(** One request, then [handleResponse]: the request is logged and nothing
    else of the world changes. *)
Lemma request_then_handleResponse (req : Request) (w : World) :
  snd (bind (fetch req) AuthService.handleResponse w) = log_request req w.
Proof.
  unfold bind, fetch.
  destruct (server (requests w) req) as [response|]; [| reflexivity].
  apply AuthService_handleResponse_keeps_world.
Qed.

(** X6.  Every endpoint method of [AuthService] sends exactly one request
    and leaves [localStorage], the console and the location as they were,
    whatever the server answers: [login] and [getToken] do not store the
    tokens they receive and [logout] clears nothing.  The requests of
    [login], [getToken] and [requestPasswordReset] carry no [Authorization]
    header; [logout] without a refresh token sends an empty object. *)
Theorem AuthService_endpoints_only_send (w : World) (token : string)
    (credentials : LoginRequest.t) (tokenRequest : TokenRequest.t)
    (resetData : ResetPasswordRequest.t) (passwordData : ChangePasswordRequest)
    (refreshToken : option string) :
  snd (AuthService.login credentials w)
  = log_request (mkRequest "http://127.0.0.1:8000/api/v1/accounts/auth/login/" "POST"
                   [("Content-Type", "application/json")]
                   (Some [("email", LoginRequest.email credentials);
                          ("password", LoginRequest.password credentials)])) w
  /\ snd (AuthService.getToken tokenRequest w)
     = log_request (mkRequest "http://127.0.0.1:8000/api/v1/accounts/auth/token/" "POST"
                      [("Content-Type", "application/json")]
                      (Some [("username", TokenRequest.username tokenRequest);
                             ("password", TokenRequest.password tokenRequest)])) w
  /\ snd (AuthService.requestPasswordReset resetData w)
     = log_request (mkRequest
                      "http://127.0.0.1:8000/api/v1/accounts/auth/reset-password-request/"
                      "POST" [("Content-Type", "application/json")]
                      (Some [("employee_id", ResetPasswordRequest.employee_id resetData);
                             ("email", ResetPasswordRequest.email resetData)])) w
  /\ snd (AuthService.logout token refreshToken w)
     = log_request (mkRequest "http://127.0.0.1:8000/api/v1/accounts/auth/logout/" "POST"
                      (AuthService.getAuthHeaders (Some token))
                      (Some match refreshToken with
                            | Some r => [("refresh", r)]
                            | None => []
                            end)) w
  /\ snd (AuthService.changePassword token passwordData w)
     = log_request (mkRequest "http://127.0.0.1:8000/api/v1/accounts/auth/change-password/"
                      "POST" (AuthService.getAuthHeaders (Some token))
                      (Some [("old_password", old_password passwordData);
                             ("new_password", new_password passwordData);
                             ("new_password_confirm", new_password_confirm passwordData)])) w
  /\ snd (AuthService.getProfile token w)
     = log_request (mkRequest "http://127.0.0.1:8000/api/v1/accounts/profile/" "GET"
                      (AuthService.getAuthHeaders (Some token)) None) w
  /\ snd (AuthService.getPreferences token w)
     = log_request (mkRequest "http://127.0.0.1:8000/api/v1/accounts/preferences/" "GET"
                      (AuthService.getAuthHeaders (Some token)) None) w
  /\ snd (AuthService.getSessionStatus token w)
     = log_request (mkRequest "http://127.0.0.1:8000/api/v1/accounts/auth/session/status/"
                      "GET" (AuthService.getAuthHeaders (Some token)) None) w
  /\ snd (AuthService.getUserSessions token w)
     = log_request (mkRequest "http://127.0.0.1:8000/api/v1/accounts/auth/sessions/" "GET"
                      (AuthService.getAuthHeaders (Some token)) None) w
  /\ snd (AuthService.getDashboardStats token w)
     = log_request (mkRequest "http://127.0.0.1:8000/api/v1/accounts/dashboard/stats/" "GET"
                      (AuthService.getAuthHeaders (Some token)) None) w.
Proof.
  repeat split; apply request_then_handleResponse.
Qed.

End Responses.

(** Witness of [errorMessage_priority]: a 500 whose body has a [message]
    and neither [error] nor [detail]. *)
Lemma errorMessage_priority_witness :
  fst (AuthService.handleResponse (H := Scenario.backend_up)
         (mkResponse 500 (Some Scenario.refreshed)) (Scenario.page Scenario.fresh))
  = Throw (Error "Token refreshed").
Proof.
  destruct (errorMessage_priority (H := Scenario.backend_up)
              (mkResponse 500 (Some Scenario.refreshed)) (Scenario.page Scenario.fresh)
              Scenario.refreshed
              (mkErrorData Falsy (Truthy "Token refreshed") Falsy))
    as (_ & Hmessage & _).
  - vm_compute. intros [_ Hle]. apply Hle. reflexivity.
  - reflexivity.
  - reflexivity.
  - apply (Hmessage "Token refreshed"); reflexivity.
Defined.

(** ** More on [getValidAccessToken] *)

Section ValidAccessToken.

Context `{Env}.
Import AuthService.

Arguments isAccessTokenExpired : simpl never.
Arguments isRefreshTokenExpired : simpl never.
Arguments getStoredAccessToken : simpl never.
Arguments getStoredRefreshToken : simpl never.
Arguments truthy : simpl never.
Arguments expiredOrMissing : simpl never.

(** The outcome of the refresh branch, by cases on the server's answer. *)
Lemma refresh_branch_cases (w : World) (r : string) :
  let out :=
    match server (requests w) (refreshRequest r) with
    | Some response =>
        if ok response then
          match json response with
          | Some j =>
              (Return (Some (access (asRefreshTokenResponse j))),
               after_refresh w r (asRefreshTokenResponse j))
          | None => (Return None, after_failed_refresh w r JsonSyntaxError)
          end
        else
          (Return None,
           after_failed_refresh w r
             (errorThrown (Response_errorData response) (status response)))
    | None => (Return None, after_failed_refresh w r FetchFailed)
    end in
  (exists resp, out = (Return (Some (access resp)), after_refresh w r resp))
  \/ (exists e, out = (Return None, after_failed_refresh w r e)).
Proof.
  cbv zeta. destruct (server (requests w) (refreshRequest r)) as [response|]; [| eauto].
  destruct (ok response); [| eauto]. destruct (json response); eauto.
Qed.

(** The four ways a call can go. *)
Lemma getValidAccessToken_cases (now : Z) (w : World) :
  ((truthy (getStoredAccessToken (localStorage w)) = false
    \/ truthy (getStoredRefreshToken (localStorage w)) = false)
   /\ getValidAccessToken now w = (Return None, w))
  \/ (exists a, getStoredAccessToken (localStorage w) = Some a
                /\ getValidAccessToken now w = (Return (Some a), w))
  \/ (truthy (getStoredAccessToken (localStorage w)) = true
      /\ truthy (getStoredRefreshToken (localStorage w)) = true
      /\ isRefreshTokenExpired now (localStorage w) = true
      /\ getValidAccessToken now w = (Return None, after_purge w))
  \/ (exists r, truthy (getStoredAccessToken (localStorage w)) = true
                /\ getStoredRefreshToken (localStorage w) = Some r
                /\ truthy (Some r) = true
                /\ isRefreshTokenExpired now (localStorage w) = false
                /\ ((exists resp, getValidAccessToken now w
                                  = (Return (Some (access resp)), after_refresh w r resp))
                    \/ (exists e, getValidAccessToken now w
                                  = (Return None, after_failed_refresh w r e)))).
Proof.
  destruct (truthy (getStoredAccessToken (localStorage w))) eqn:Hta;
    [| left; split; [left; reflexivity |];
       apply getValidAccessToken_missing; left; exact Hta].
  destruct (truthy (getStoredRefreshToken (localStorage w))) eqn:Htr;
    [| left; split; [right; reflexivity |];
       apply getValidAccessToken_missing; right; exact Htr].
  pose proof (truthy_inv _ Hta) as (a & Ha & Hta').
  pose proof (truthy_inv _ Htr) as (r & Hr & Htr').
  destruct (isAccessTokenExpired now (localStorage w)) eqn:Hexp.
  - destruct (isRefreshTokenExpired now (localStorage w)) eqn:Hrexp.
    + right; right; left. repeat split; trivial.
      apply getValidAccessToken_lapsed; assumption.
    + right; right; right. exists r. repeat split; trivial.
      rewrite (getValidAccessToken_refresh now w r Hta Hr Htr' Hexp Hrexp).
      apply refresh_branch_cases.
  - right; left. exists a. split; [exact Ha |].
    apply getValidAccessToken_fresh; assumption.
Qed.



(** X8.  With both tokens stored, the access token expired and the refresh
    token not, a refresh that fails (the network fails, the status is
    outside 200-299, or the body is not JSON) gives [null]: the one
    request was sent, one line was written to the console, and the four
    credential fields and the cached profile are removed. *)
Theorem failed_refresh_purges (now : Z) (w : World) (r : string) :
  truthy (getStoredAccessToken (localStorage w)) = true ->
  getStoredRefreshToken (localStorage w) = Some r ->
  truthy (Some r) = true ->
  isAccessTokenExpired now (localStorage w) = true ->
  isRefreshTokenExpired now (localStorage w) = false ->
  (server (requests w) (refreshRequest r) = None
   \/ exists response, server (requests w) (refreshRequest r) = Some response
                       /\ (ok response = false \/ json response = None)) ->
  exists e,
    getValidAccessToken now w = (Return None, after_failed_refresh w r e)
    /\ purged (localStorage (snd (getValidAccessToken now w)))
    /\ requests (snd (getValidAccessToken now w)) = (requests w ++ [refreshRequest r])%list
    /\ console (snd (getValidAccessToken now w))
       = (console w ++ [("Token refresh failed:", e)])%list.
Proof.
  intros Hta Hr Htr Hexp Hrexp Hfails.
  rewrite (getValidAccessToken_refresh now w r Hta Hr Htr Hexp Hrexp).
  destruct Hfails as [Hnone | (response & Hresp & Hbad)].
  - rewrite Hnone. exists FetchFailed. repeat split; apply purge_purged.
  - rewrite Hresp. destruct (ok response) eqn:Hok.
    + destruct Hbad as [Hbad | Hbad]; [discriminate |]. rewrite Hbad.
      exists JsonSyntaxError. repeat split; apply purge_purged.
    + eexists. repeat split; apply purge_purged.
Qed.


(** X10.  A token that [getValidAccessToken] returned is served from the
    store afterwards: when it is not empty and the access expiry then
    stored is a date after [now], a second call at [now] returns the same
    token, sends nothing and changes nothing. *)
Theorem returned_token_is_cached (now : Z) (w : World) (tok e : string) (t : Z) :
  fst (getValidAccessToken now w) = Return (Some tok) ->
  truthy (Some tok) = true ->
  Storage.getItem ACCESS_EXPIRES_AT (localStorage (snd (getValidAccessToken now w))) = Some e ->
  Date_parse e = Some t ->
  now < t ->
  getValidAccessToken now (snd (getValidAccessToken now w))
  = (Return (Some tok), snd (getValidAccessToken now w)).
Proof.
  destruct (getValidAccessToken_cases now w)
    as [[_ Hout] | [(a & _ & Hout) | [(_ & _ & _ & Hout)
        | (r & _ & Hr & Htr & _ & [(resp & Hout) | (e' & Hout)])]]];
    rewrite Hout; simpl; try discriminate.
  - intros Htok _ _ _ _. injection Htok as <-. exact Hout.
  - intros Htok Httok He Ht Hlt. injection Htok as <-.
    apply getValidAccessToken_fresh; simpl.
    + unfold getStoredAccessToken, Storage.getItem. rewrite storeTokens_lookup. reflexivity.
    + exact Httok.
    + unfold getStoredRefreshToken, Storage.getItem. rewrite storeTokens_lookup. exact Htr.
    + unfold isAccessTokenExpired. rewrite He.
      apply (expiredOrMissing_future now e t Ht Hlt).
Qed.

(** X11.  After [removeTokens] the store is signed out at every instant:
    [isAuthenticated] is false and [getValidAccessToken] returns [null]
    without sending or writing anything. *)
Theorem removeTokens_signs_out (now : Z) (w : World) :
  isAuthenticated now (removeTokens (localStorage w)) = false
  /\ getValidAccessToken now (set_localStorage removeTokens w)
     = (Return None, set_localStorage removeTokens w).
Proof.
  assert (Hnone : getStoredAccessToken (removeTokens (localStorage w)) = None).
  { unfold getStoredAccessToken, Storage.getItem. rewrite removeTokens_lookup. reflexivity. }
  split.
  - unfold isAuthenticated. rewrite Hnone. reflexivity.
  - apply getValidAccessToken_missing. left. simpl. rewrite Hnone. reflexivity.
Qed.

(** X12.  After [storeTokens] with two non-empty tokens and a refresh
    expiry that is a date after [now], [isAuthenticated] holds whatever was
    stored before; and when the access expiry too is a date after [now],
    [getValidAccessToken] returns the access token just stored without
    sending anything. *)
Theorem storeTokens_signs_in (now : Z) (w : World) (a r ae re : string) (tr : Z) :
  truthy (Some a) = true ->
  truthy (Some r) = true ->
  Date_parse re = Some tr ->
  now < tr ->
  isAuthenticated now (storeTokens a r ae re (localStorage w)) = true
  /\ (forall ta, Date_parse ae = Some ta -> now < ta ->
        getValidAccessToken now (set_localStorage (storeTokens a r ae re) w)
        = (Return (Some a), set_localStorage (storeTokens a r ae re) w)).
Proof.
  intros Hta Htr Hre Hlt.
  assert (Ha : getStoredAccessToken (storeTokens a r ae re (localStorage w)) = Some a).
  { unfold getStoredAccessToken, Storage.getItem. rewrite storeTokens_lookup. reflexivity. }
  assert (Hr : getStoredRefreshToken (storeTokens a r ae re (localStorage w)) = Some r).
  { unfold getStoredRefreshToken, Storage.getItem. rewrite storeTokens_lookup. reflexivity. }
  split.
  - unfold isAuthenticated. rewrite Ha, Hr, Hta, Htr. simpl.
    unfold isRefreshTokenExpired, Storage.getItem. rewrite storeTokens_lookup. simpl.
    rewrite (expiredOrMissing_future now re tr Hre Hlt). reflexivity.
  - intros ta Hae Hlta. apply getValidAccessToken_fresh; simpl.
    + exact Ha.
    + exact Hta.
    + rewrite Hr. exact Htr.
    + unfold isAccessTokenExpired, Storage.getItem. rewrite storeTokens_lookup. simpl.
      apply (expiredOrMissing_future now ae ta Hae Hlta).
Qed.

End ValidAccessToken.

(** Witness of [failed_refresh_purges]: the stale store, the backend
    answering the refresh with a 401. *)
Lemma failed_refresh_purges_witness :
  exists e,
    AuthService.getValidAccessToken (H := Scenario.backend_rejecting) Scenario.now
      (Scenario.page Scenario.stale)
    = (Return None, after_failed_refresh (Scenario.page Scenario.stale) "refresh-1" e)
    /\ purged (localStorage (snd (AuthService.getValidAccessToken
                                    (H := Scenario.backend_rejecting) Scenario.now
                                    (Scenario.page Scenario.stale))))
    /\ requests (snd (AuthService.getValidAccessToken (H := Scenario.backend_rejecting)
                        Scenario.now (Scenario.page Scenario.stale)))
       = [AuthService.refreshRequest "refresh-1"]
    /\ console (snd (AuthService.getValidAccessToken (H := Scenario.backend_rejecting)
                       Scenario.now (Scenario.page Scenario.stale)))
       = [("Token refresh failed:", e)].
Proof.
  apply (failed_refresh_purges (H := Scenario.backend_rejecting) Scenario.now
           (Scenario.page Scenario.stale) "refresh-1"); try reflexivity.
  right. exists (mkResponse 401 None). split; [reflexivity |]. left. reflexivity.
Defined.


(** Witness of [returned_token_is_cached]: after the refresh on the stale
    store, the new token is served without a second request. *)
Lemma returned_token_is_cached_witness :
  AuthService.getValidAccessToken (H := Scenario.backend_up) Scenario.now
    (snd (AuthService.getValidAccessToken (H := Scenario.backend_up) Scenario.now
            (Scenario.page Scenario.stale)))
  = (Return (Some "access-2"),
     snd (AuthService.getValidAccessToken (H := Scenario.backend_up) Scenario.now
            (Scenario.page Scenario.stale))).
Proof.
  apply (returned_token_is_cached (H := Scenario.backend_up) Scenario.now
           (Scenario.page Scenario.stale) "access-2" Scenario.in_an_hour 1793538000000);
    reflexivity.
Defined.

(** Witness of [storeTokens_signs_in]: a login stored over a purged page. *)
Lemma storeTokens_signs_in_witness :
  AuthService.isAuthenticated (H := IsoDate.date) Scenario.now
    (AuthService.storeTokens "access-1" "refresh-1" Scenario.in_an_hour Scenario.in_a_week
       (localStorage (Scenario.page ∅))) = true
  /\ (forall ta, IsoDate.parse Scenario.in_an_hour = Some ta -> Scenario.now < ta ->
        AuthService.getValidAccessToken (H := Scenario.backend_down) Scenario.now
          (set_localStorage
             (AuthService.storeTokens "access-1" "refresh-1" Scenario.in_an_hour
                Scenario.in_a_week) (Scenario.page ∅))
        = (Return (Some "access-1"),
           set_localStorage
             (AuthService.storeTokens "access-1" "refresh-1" Scenario.in_an_hour
                Scenario.in_a_week) (Scenario.page ∅))).
Proof.
  apply (storeTokens_signs_in (H := Scenario.backend_down) Scenario.now (Scenario.page ∅)
           "access-1" "refresh-1" Scenario.in_an_hour Scenario.in_a_week 1794139200000);
    reflexivity.
Defined.

(** ** More on [ApiClient] *)

Section ApiClientFacts.

Context `{Env}.

(** A call of [getValidAccessToken] completes normally. *)
Lemma getValidAccessToken_returns (now : Z) (w : World) :
  exists token, fst (AuthService.getValidAccessToken now w) = Return token.
Proof.
  destruct (getValidAccessToken_cases now w)
    as [[_ Hout] | [(a & _ & Hout) | [(_ & _ & _ & Hout)
        | (r & _ & _ & _ & _ & [(resp & Hout) | (e & Hout)])]]];
    rewrite Hout; eauto.
Qed.

(** [ApiClient.getAuthHeaders] builds the headers that
    [AuthService.getAuthHeaders] builds for the token it obtained. *)
Lemma ApiClient_getAuthHeaders_eq (now : Z) (w : World) :
  exists token,
    fst (AuthService.getValidAccessToken now w) = Return token
    /\ ApiClient.getAuthHeaders now w
       = (Return (AuthService.getAuthHeaders token),
          snd (AuthService.getValidAccessToken now w)).
Proof.
  destruct (getValidAccessToken_returns now w) as [token Htoken].
  exists token. split; [exact Htoken |].
  unfold ApiClient.getAuthHeaders, bind.
  destruct (AuthService.getValidAccessToken now w) as [c w1]. simpl in *. subst c.
  unfold AuthService.getAuthHeaders.
  destruct token as [t|]; [| reflexivity]. destruct (truthy (Some t)); reflexivity.
Qed.

Lemma ApiClient_handleResponse_not_401 (response : Response Json) (w : World) :
  status response <> 401 ->
  ApiClient.handleResponse response w = AuthService.handleResponse response w.
Proof.
  intros Hstatus. unfold ApiClient.handleResponse, AuthService.handleResponse.
  destruct (negb (ok response)); [| reflexivity].
  destruct (Z.eqb_spec (status response) 401); [contradiction | reflexivity].
Qed.

Lemma ApiClient_handleResponse_requests (response : Response Json) (w : World) :
  requests (snd (ApiClient.handleResponse response w)) = requests w.
Proof.
  destruct (Z.eq_dec (status response) 401) as [H401 | Hnot].
  - rewrite (ApiClient_handleResponse_401 response w H401). reflexivity.
  - rewrite (ApiClient_handleResponse_not_401 response w Hnot).
    rewrite AuthService_handleResponse_keeps_world. reflexivity.
Qed.

(** X13.  [ApiClient.handleResponse] differs from
    [AuthService.handleResponse] on the status 401 alone.  On a 401 it
    removes the four credential fields and the cached profile, sets the
    location to ["/"] and throws a fixed message, whatever the body says;
    on every other response, failed ones such as 403 or 500 among them, it
    is [AuthService.handleResponse] and leaves the world as it was. *)
Theorem ApiClient_handleResponse_purges_only_on_401 (response : Response Json) (w : World) :
  (status response = 401 ->
   fst (ApiClient.handleResponse response w)
   = Throw (Error "Authentication required. Please login again.")
   /\ purged (localStorage (snd (ApiClient.handleResponse response w)))
   /\ location_href (snd (ApiClient.handleResponse response w)) = "/"
   /\ requests (snd (ApiClient.handleResponse response w)) = requests w)
  /\ (status response <> 401 ->
      ApiClient.handleResponse response w = AuthService.handleResponse response w
      /\ snd (ApiClient.handleResponse response w) = w).
Proof.
  split.
  - intros H401. rewrite (ApiClient_handleResponse_401 response w H401). simpl.
    repeat split; apply purge_purged.
  - intros Hnot. rewrite (ApiClient_handleResponse_not_401 response w Hnot).
    split; [reflexivity | apply AuthService_handleResponse_keeps_world].
Qed.

(** What every verb of [ApiClient] does once the token is obtained. *)
Lemma ApiClient_verb (url method : string) (body : option (list (string * string)))
    (now : Z) (w : World) :
  exists token,
    fst (AuthService.getValidAccessToken now w) = Return token
    /\ bind (ApiClient.getAuthHeaders now)
         (fun headers =>
            bind (fetch (mkRequest url method headers body))
                 (fun response => ApiClient.handleResponse response)) w
       = bind (fetch (mkRequest url method (AuthService.getAuthHeaders token) body))
           ApiClient.handleResponse (snd (AuthService.getValidAccessToken now w)).
Proof.
  destruct (ApiClient_getAuthHeaders_eq now w) as (token & Htoken & Hheaders).
  exists token. split; [exact Htoken |].
  unfold bind at 1. rewrite Hheaders. reflexivity.
Qed.

Lemma fetch_then_handleResponse_requests (req : Request) (w : World) :
  requests (snd (bind (fetch req) ApiClient.handleResponse w)) = (requests w ++ [req])%list.
Proof.
  unfold bind, fetch. destruct (server (requests w) req) as [response|]; [| reflexivity].
  rewrite ApiClient_handleResponse_requests. reflexivity.
Qed.


(** X14.  Every verb of [ApiClient] sends its request, once, after
    [getValidAccessToken] has run, also when no token could be obtained:
    the request then carries the [Content-Type] header alone.  With a
    token it carries [Authorization: Bearer] and the token. *)
Theorem ApiClient_always_sends `{URLSearchParams} (baseURL endpoint : string) (now : Z)
    (data : option (list (string * string))) (params : option (list (string * JsAny)))
    (w : World) :
  exists token,
    fst (AuthService.getValidAccessToken now w) = Return token
    /\ let w1 := snd (AuthService.getValidAccessToken now w) in
       let headers :=
         match token with
         | Some t => if truthy token
                     then [("Content-Type", "application/json");
                           ("Authorization", "Bearer " ++ t)]
                     else [("Content-Type", "application/json")]
         | None => [("Content-Type", "application/json")]
         end in
       requests (snd (ApiClient.post baseURL now endpoint data w))
       = (requests w1 ++ [mkRequest (baseURL ++ endpoint) "POST" headers data])%list
       /\ requests (snd (ApiClient.put baseURL now endpoint data w))
          = (requests w1 ++ [mkRequest (baseURL ++ endpoint) "PUT" headers data])%list
       /\ requests (snd (ApiClient.patch baseURL now endpoint data w))
          = (requests w1 ++ [mkRequest (baseURL ++ endpoint) "PATCH" headers data])%list
       /\ requests (snd (ApiClient.delete baseURL now endpoint w))
          = (requests w1 ++ [mkRequest (baseURL ++ endpoint) "DELETE" headers None])%list
       /\ requests (snd (ApiClient.get baseURL now endpoint params w))
          = (requests w1
             ++ [mkRequest (ApiClient.get_url baseURL endpoint params) "GET" headers None])%list.
Proof.
  destruct (getValidAccessToken_returns now w) as [token Htoken].
  exists token. split; [exact Htoken |]. cbv zeta.
  assert (Hheaders :
            match token with
            | Some t => if truthy token
                        then [("Content-Type", "application/json");
                              ("Authorization", "Bearer " ++ t)]
                        else [("Content-Type", "application/json")]
            | None => [("Content-Type", "application/json")]
            end = AuthService.getAuthHeaders token).
  { unfold AuthService.getAuthHeaders. destruct token as [t|]; [| reflexivity].
    destruct (truthy (Some t)); reflexivity. }
  rewrite Hheaders.
  repeat split.
  - unfold ApiClient.post.
    destruct (ApiClient_verb (baseURL ++ endpoint) "POST" data now w) as (token' & Ht & ->).
    rewrite fetch_then_handleResponse_requests. congruence.
  - unfold ApiClient.put.
    destruct (ApiClient_verb (baseURL ++ endpoint) "PUT" data now w) as (token' & Ht & ->).
    rewrite fetch_then_handleResponse_requests. congruence.
  - unfold ApiClient.patch.
    destruct (ApiClient_verb (baseURL ++ endpoint) "PATCH" data now w) as (token' & Ht & ->).
    rewrite fetch_then_handleResponse_requests. congruence.
  - unfold ApiClient.delete.
    destruct (ApiClient_verb (baseURL ++ endpoint) "DELETE" None now w) as (token' & Ht & ->).
    rewrite fetch_then_handleResponse_requests. congruence.
  - unfold ApiClient.get. cbv zeta.
    destruct (ApiClient_verb (ApiClient.get_url baseURL endpoint params) "GET" None now w)
      as (token' & Ht & ->).
    rewrite fetch_then_handleResponse_requests. congruence.
Qed.


End ApiClientFacts.


(** ** Query strings *)

Section QueryStrings.

Context `{Env} `{URLSearchParams}.

Lemma append_empty_r (s : string) : s ++ "" = s.
Proof.
  induction s as [| c s IH]; [reflexivity |].
  change (String c s ++ "") with (String c (s ++ "")). rewrite IH. reflexivity.
Qed.

Lemma appended_In (entries : list (string * JsAny)) (key text : string) :
  In (key, text) (appended (Some entries)) <-> In (key, Value text) entries.
Proof.
  unfold appended. rewrite in_flat_map. split.
  - intros ([k v] & Hin & Hpair). simpl in Hpair.
    destruct v; simpl in Hpair; try contradiction.
    destruct Hpair as [Heq | []]. injection Heq as -> ->. exact Hin.
  - intros Hin. exists (key, Value text). split; [exact Hin | left; reflexivity].
Qed.

Lemma appended_nil (entries : list (string * JsAny)) :
  appended (Some entries) = [] <-> forallb nullish (map snd entries) = true.
Proof.
  unfold appended. induction entries as [| [k v] entries IH]; simpl.
  - split; reflexivity.
  - destruct v; simpl.
    + exact IH.
    + exact IH.
    + split; discriminate.
Qed.

(** X16.  A query parameter is sent exactly when its value is neither
    [undefined] nor [null].  The URL of [ApiClient.get] ends at the
    endpoint, without a question mark, when no parameters are given or all
    of them are [undefined] or [null], and otherwise continues with ["?"]
    and the serialized pairs; [getUserActivities] and [getAllUserSessions]
    write the ["?"] in every case, so without parameters they request a
    URL that ends in ["?"]. *)
Theorem query_parameters (baseURL endpoint token : string)
    (entries : list (string * JsAny)) (w : World) :
  (forall key text, In (key, text) (appended (Some entries))
                    <-> In (key, Value text) entries)
  /\ ApiClient.get_url baseURL endpoint None = baseURL ++ endpoint
  /\ (forallb nullish (map snd entries) = true ->
      ApiClient.get_url baseURL endpoint (Some entries) = baseURL ++ endpoint)
  /\ (forallb nullish (map snd entries) = false ->
      ApiClient.get_url baseURL endpoint (Some entries)
      = baseURL ++ endpoint ++ "?" ++ URLSearchParams_toString (appended (Some entries)))
  /\ snd (AuthService.getUserActivities token None w)
     = log_request (mkRequest "http://127.0.0.1:8000/api/v1/accounts/activities/?" "GET"
                      (AuthService.getAuthHeaders (Some token)) None) w
  /\ snd (AuthService.getAllUserSessions token None w)
     = log_request (mkRequest "http://127.0.0.1:8000/api/v1/accounts/sessions/?" "GET"
                      (AuthService.getAuthHeaders (Some token)) None) w
  /\ snd (AuthService.getUserActivities token (Some entries) w)
     = log_request (mkRequest ("http://127.0.0.1:8000/api/v1/accounts/activities/?"
                                 ++ URLSearchParams_toString (appended (Some entries)))
                      "GET" (AuthService.getAuthHeaders (Some token)) None) w.
Proof.
  split; [intros key text; apply appended_In |].
  split; [unfold ApiClient.get_url; simpl; rewrite URLSearchParams_toString_nil;
          simpl; rewrite append_empty_r; reflexivity |].
  split; [| split; [| split; [| split]]].
  - intros Hall. apply appended_nil in Hall. unfold ApiClient.get_url. cbv zeta.
    rewrite Hall, URLSearchParams_toString_nil. simpl. rewrite append_empty_r. reflexivity.
  - intros Hsome. unfold ApiClient.get_url. cbv zeta.
    destruct (appended (Some entries)) as [| entry rest] eqn:Happ.
    + apply appended_nil in Happ. congruence.
    + rewrite (truthy_Some_nonempty _ (URLSearchParams_toString_cons entry rest)).
      reflexivity.
  - unfold AuthService.getUserActivities. cbv zeta.
    rewrite request_then_handleResponse. simpl appended.
    rewrite URLSearchParams_toString_nil. reflexivity.
  - unfold AuthService.getAllUserSessions. cbv zeta.
    rewrite request_then_handleResponse. simpl appended.
    rewrite URLSearchParams_toString_nil. reflexivity.
  - unfold AuthService.getUserActivities. cbv zeta.
    rewrite request_then_handleResponse. reflexivity.
Qed.

End QueryStrings.

(** ** More on the revalidation check *)

Section CheckOutcomes.

Import AuthInterceptor.

(** X17.  The check never sets or clears a timer, whatever happens in it:
    after a failed refresh the interval stays set until the cleanup of the
    effect runs.  A check whose refresh resolves to [true] calls nothing
    but [refreshAccessToken]: no logout, no navigation. *)
Theorem check_leaves_timers (ctx : AuthContext) (q : Page) :
  timers (snd (checkAndRefreshToken ctx q)) = timers q
  /\ nextTimerId (snd (checkAndRefreshToken ctx q)) = nextTimerId q
  /\ (refreshAccessToken ctx (length (filter is_refresh (trace q))) = Return true ->
      checkAndRefreshToken ctx q
      = (Return tt, mkPage (trace q ++ [CallRefreshAccessToken]) (timers q) (nextTimerId q))).
Proof.
  unfold checkAndRefreshToken, try_catch, bind, call_refreshAccessToken, call_logout,
    navigate, emit.
  destruct (refreshAccessToken ctx _) as [[|] | e] eqn:Hrefresh; simpl.
  - repeat split.
  - destruct (logout ctx _) as [[] | e1]; simpl.
    + repeat split; intros; discriminate.
    + destruct (logout ctx _) as [[] | e2]; simpl; repeat split; intros; discriminate.
  - destruct (logout ctx _) as [[] | e2]; simpl; repeat split; intros; discriminate.
Qed.

(** X18.  When the refresh is refused and the call of [logout] that
    follows rejects, the rejection is caught like a failed refresh: it is
    logged and [logout] is called a second time.  If that call resolves the
    page navigates to ["/"]; if it rejects too, the check itself rejects
    and the page does not navigate. *)
Theorem check_retries_logout (ctx : AuthContext) (q : Page) (e : JsError) :
  refreshAccessToken ctx (length (filter is_refresh (trace q))) = Return false ->
  logout ctx (length (filter is_logout (trace q))) = Throw e ->
  (logout ctx (S (length (filter is_logout (trace q)))) = Return tt ->
   checkAndRefreshToken ctx q
   = (Return tt,
      mkPage (trace q ++ [CallRefreshAccessToken; CallLogout;
                          ConsoleError "Token refresh failed:"; CallLogout; Navigate "/"])
             (timers q) (nextTimerId q)))
  /\ (forall e', logout ctx (S (length (filter is_logout (trace q)))) = Throw e' ->
        checkAndRefreshToken ctx q
        = (Throw e',
           mkPage (trace q ++ [CallRefreshAccessToken; CallLogout;
                               ConsoleError "Token refresh failed:"; CallLogout])
                  (timers q) (nextTimerId q))).
Proof.
  intros Hrefresh Hfirst.
  assert (Hcount : length (filter is_logout
                     (((trace q ++ [CallRefreshAccessToken]) ++ [CallLogout])
                      ++ [ConsoleError "Token refresh failed:"])%list)
                   = S (length (filter is_logout (trace q)))).
  { rewrite !filter_app, !length_app. simpl. lia. }
  assert (Hcount0 : length (filter is_logout (trace q ++ [CallRefreshAccessToken])%list)
                    = length (filter is_logout (trace q))).
  { rewrite filter_app, length_app. simpl. lia. }
  split.
  - intros Hsecond.
    unfold checkAndRefreshToken, try_catch, bind, call_refreshAccessToken, call_logout,
      navigate, emit.
    rewrite Hrefresh. simpl. rewrite Hcount0, Hfirst. simpl. rewrite Hcount, Hsecond.
    rewrite <- !app_assoc. reflexivity.
  - intros e' Hsecond.
    unfold checkAndRefreshToken, try_catch, bind, call_refreshAccessToken, call_logout,
      navigate, emit.
    rewrite Hrefresh. simpl. rewrite Hcount0, Hfirst. simpl. rewrite Hcount, Hsecond.
    rewrite <- !app_assoc. reflexivity.
Qed.

End CheckOutcomes.

(** Witness of [check_retries_logout]: the first [logout] rejects, the
    second resolves. *)
Lemma check_retries_logout_witness :
  (AuthInterceptor.logout Scenario.logout_failing_once 1 = Return tt ->
   AuthInterceptor.checkAndRefreshToken Scenario.logout_failing_once Scenario.idle
   = (Return tt,
      AuthInterceptor.mkPage
        [AuthInterceptor.CallRefreshAccessToken; AuthInterceptor.CallLogout;
         AuthInterceptor.ConsoleError "Token refresh failed:"; AuthInterceptor.CallLogout;
         AuthInterceptor.Navigate "/"] ∅ 1))
  /\ (forall e', AuthInterceptor.logout Scenario.logout_failing_once 1 = Throw e' ->
        AuthInterceptor.checkAndRefreshToken Scenario.logout_failing_once Scenario.idle
        = (Throw e',
           AuthInterceptor.mkPage
             [AuthInterceptor.CallRefreshAccessToken; AuthInterceptor.CallLogout;
              AuthInterceptor.ConsoleError "Token refresh failed:";
              AuthInterceptor.CallLogout] ∅ 1)).
Proof.
  apply (check_retries_logout Scenario.logout_failing_once Scenario.idle FetchFailed);
    reflexivity.
Defined.

(** ** [formatTimeRemaining] *)

Section TimeRemaining.

Import SessionManager.

Lemma no_m_in_Expired (n : nat) : String.get n "Expired" <> Some "m"%char.
Proof.
  do 7 (destruct n as [| n]; [discriminate |]). destruct n; discriminate.
Qed.

Lemma ends_in_m_not_Expired (p q r : string) : p ++ q ++ r ++ "m" <> "Expired".
Proof.
  intros Heq.
  assert (Hget : String.get (0 + String.length r + String.length q + String.length p)
                   (p ++ q ++ r ++ "m")
                 = Some "m"%char).
  { rewrite <- !append_correct2. reflexivity. }
  rewrite Heq in Hget. exact (no_m_in_Expired _ Hget).
Qed.

(** X19.  For a whole number of seconds up to [Number.MAX_SAFE_INTEGER]:
    the text is ["Expired"] exactly when no time is left; otherwise it
    shows the whole hours and the whole minutes of the rest, the hours only
    when there is at least one, and drops the seconds, so that less than a
    minute left reads ["0m"]. *)
Theorem formatTimeRemaining_spec (seconds : Z) :
  seconds <= MAX_SAFE_INTEGER ->
  (formatTimeRemaining seconds = Some "Expired" <-> seconds <= 0)
  /\ (0 < seconds < 60 -> formatTimeRemaining seconds = Some "0m")
  /\ (0 < seconds ->
      exists hours minutes,
        0 <= hours /\ 0 <= minutes < 60
        /\ 3600 * hours + 60 * minutes <= seconds < 3600 * hours + 60 * minutes + 60
        /\ formatTimeRemaining seconds
           = Some (if 0 <? hours then pretty hours ++ "h " ++ pretty minutes ++ "m"
                   else pretty minutes ++ "m")).
Proof.
  intros Hsafe. unfold formatTimeRemaining.
  destruct (Z.ltb_spec MAX_SAFE_INTEGER seconds) as [Hbig | _]; [lia |].
  split; [| split].
  - destruct (Z.leb_spec seconds 0) as [Hle | Hgt].
    + split; [intros _; exact Hle | reflexivity].
    + split; [| lia]. cbv zeta.
      destruct (0 <? seconds / 3600); intros Heq; injection Heq as Heq; exfalso.
      * exact (ends_in_m_not_Expired _ _ _ Heq).
      * exact (ends_in_m_not_Expired "" "" _ Heq).
  - intros [Hpos Hlt]. destruct (Z.leb_spec seconds 0) as [Hle | _]; [lia |]. cbv zeta.
    rewrite (Z.div_small seconds 3600) by lia.
    rewrite (Z.mod_small seconds 3600) by lia.
    rewrite (Z.div_small seconds 60) by lia. reflexivity.
  - intros Hpos. destruct (Z.leb_spec seconds 0) as [Hle | _]; [lia |]. cbv zeta.
    exists (seconds / 3600), ((seconds mod 3600) / 60).
    pose proof (Z.div_mod seconds 3600 ltac:(lia)) as Hdm.
    pose proof (Z.mod_pos_bound seconds 3600 ltac:(lia)) as Hmod.
    pose proof (Z.div_mod (seconds mod 3600) 60 ltac:(lia)) as Hdm'.
    pose proof (Z.mod_pos_bound (seconds mod 3600) 60 ltac:(lia)) as Hmod'.
    assert (Hh : 0 <= seconds / 3600) by (apply Z.div_pos; lia).
    assert (Hm : 0 <= seconds mod 3600 / 60) by (apply Z.div_pos; lia).
    assert (Hm' : seconds mod 3600 / 60 < 60) by (apply Z.div_lt_upper_bound; lia).
    repeat split; try lia.
    destruct (0 <? seconds / 3600); reflexivity.
Qed.

End TimeRemaining.

(** Witness of [formatTimeRemaining_spec]: two hours, two minutes and five
    seconds. *)
Lemma formatTimeRemaining_spec_witness :
  exists hours minutes,
    0 <= hours /\ 0 <= minutes < 60
    /\ 3600 * hours + 60 * minutes <= 7325 < 3600 * hours + 60 * minutes + 60
    /\ SessionManager.formatTimeRemaining 7325
       = Some (if 0 <? hours then pretty hours ++ "h " ++ pretty minutes ++ "m"
               else pretty minutes ++ "m").
Proof.
  apply (formatTimeRemaining_spec 7325); [vm_compute; discriminate | lia].
Defined.

(** ** The change-password form *)

Section ChangePassword.

Context `{Env}.
Import ProfileManagement.

(** X20.  A form with an empty field, or whose two new passwords differ,
    sends nothing: the world is as before, one ["Validation Error"] toast
    is raised, the fields and the form stay as they are, and [saving] ends
    false.  Empty fields are reported before a mismatch. *)
Theorem invalid_password_form_sends_nothing (token : string) (w : World) (v : View) :
  old_password (passwordData v) = "" \/ new_password (passwordData v) = ""
  \/ new_password_confirm (passwordData v) = ""
  \/ new_password (passwordData v) <> new_password_confirm (passwordData v) ->
  exists text,
    handleChangePassword token (w, v)
    = (Return tt,
       (w, mkView false (showPasswordForm v) (passwordData v)
                  (toasts v ++ [mkToast "Validation Error" (Text text)
                                        (Some "destructive")])))
    /\ (text = "Please fill in all password fields"
        <-> old_password (passwordData v) = "" \/ new_password (passwordData v) = ""
            \/ new_password_confirm (passwordData v) = "")
    /\ (text = "New passwords do not match"
        <-> ~ (old_password (passwordData v) = "" \/ new_password (passwordData v) = ""
               \/ new_password_confirm (passwordData v) = "")).
Proof.
  intros Hinvalid.
  unfold handleChangePassword, try_finally, try_catch, toast, setSaving. simpl.
  unfold truthy.
  destruct (String.eqb_spec (old_password (passwordData v)) "") as [Ho | Ho]; simpl.
  { exists "Please fill in all password fields". split; [reflexivity |].
    split; [tauto |]. split; [discriminate | tauto]. }
  destruct (String.eqb_spec (new_password (passwordData v)) "") as [Hn | Hn]; simpl.
  { exists "Please fill in all password fields". split; [reflexivity |].
    split; [tauto |]. split; [discriminate | tauto]. }
  destruct (String.eqb_spec (new_password_confirm (passwordData v)) "") as [Hc | Hc]; simpl.
  { exists "Please fill in all password fields". split; [reflexivity |].
    split; [tauto |]. split; [discriminate | tauto]. }
  destruct (String.eqb_spec (new_password (passwordData v))
              (new_password_confirm (passwordData v))) as [Heq | Hne]; simpl.
  { exfalso. tauto. }
  exists "New passwords do not match". split; [reflexivity |].
  split; [split; [discriminate | tauto] | tauto].
Qed.

(** X21.  A form with three non-empty fields whose new passwords agree
    sends exactly one request, the change-password request with the three
    fields and the bearer token, and never touches [localStorage].  The
    handler itself never rejects and ends with [saving] false.  When the
    server answers with a status in 200-299 and a JSON body, a ["Success"]
    toast is raised, the form is hidden and its fields are emptied; in
    every other case an ["Error Changing Password"] toast carries the
    message of the failure and the form keeps its fields. *)
Theorem valid_password_form_sends_once (token : string) (w : World) (v : View) :
  old_password (passwordData v) <> "" ->
  new_password (passwordData v) <> "" ->
  new_password_confirm (passwordData v) = new_password (passwordData v) ->
  let req := mkRequest "http://127.0.0.1:8000/api/v1/accounts/auth/change-password/" "POST"
               (AuthService.getAuthHeaders (Some token))
               (Some [("old_password", old_password (passwordData v));
                      ("new_password", new_password (passwordData v));
                      ("new_password_confirm", new_password_confirm (passwordData v))]) in
  let out := handleChangePassword token (w, v) in
  fst out = Return tt
  /\ fst (snd out) = log_request req w
  /\ saving (snd (snd out)) = false
  /\ ((exists response j, server (requests w) req = Some response
                          /\ ok response = true /\ json response = Some j) ->
      snd (snd out)
      = mkView false false (mkChangePasswordRequest "" "" "")
               (toasts v ++ [mkToast "Success" (Text "Password changed successfully") None]))
  /\ (~ (exists response j, server (requests w) req = Some response
                            /\ ok response = true /\ json response = Some j) ->
      exists e,
        snd (snd out)
        = mkView false (showPasswordForm v) (passwordData v)
                 (toasts v ++ [mkToast "Error Changing Password" (MessageOf e)
                                       (Some "destructive")])).
Proof.
  intros Ho Hn Hc. cbv zeta.
  unfold handleChangePassword, try_finally, try_catch, bind, toast, setSaving,
    setShowPasswordForm, setPasswordData, await. simpl.
  unfold truthy. rewrite Hc.
  destruct (String.eqb_spec (old_password (passwordData v)) "") as [Ho' | _];
    [contradiction |].
  destruct (String.eqb_spec (new_password (passwordData v)) "") as [Hn' | _];
    [contradiction |].
  rewrite String.eqb_refl. simpl.
  unfold AuthService.changePassword, bind, fetch, AuthService.handleResponse, Response_json.
  simpl. rewrite Hc.
  destruct (server (requests w) _) as [response|] eqn:Hresp; simpl.
  - destruct (ok response) eqn:Hok; simpl.
    + destruct (json response) as [j|] eqn:Hj; simpl.
      * repeat split; try reflexivity. intros Hnot. exfalso. apply Hnot. eauto.
      * repeat split; try reflexivity.
        -- intros (response' & j & Hresp' & _ & Hj').
           injection Hresp' as <-. congruence.
        -- intros _. eexists. reflexivity.
    + repeat split; try reflexivity.
      * intros (response' & j & Hresp' & Hok' & _). injection Hresp' as <-. congruence.
      * intros _. eexists. reflexivity.
  - repeat split; try reflexivity.
    + intros (response' & j & Hresp' & _). discriminate.
    + intros _. eexists. reflexivity.
Qed.

End ChangePassword.

(** Witness of [invalid_password_form_sends_nothing]: the confirmation
    differs from the new password. *)
Lemma invalid_password_form_sends_nothing_witness :
  exists text,
    ProfileManagement.handleChangePassword (H := Scenario.backend_up) "access-1"
      (Scenario.page Scenario.fresh, Scenario.form "old" "new-1" "new-2")
    = (Return tt,
       (Scenario.page Scenario.fresh,
        ProfileManagement.mkView false true (mkChangePasswordRequest "old" "new-1" "new-2")
          [ProfileManagement.mkToast "Validation Error" (ProfileManagement.Text text)
             (Some "destructive")]))
    /\ text = "New passwords do not match".
Proof.
  destruct (invalid_password_form_sends_nothing (H := Scenario.backend_up) "access-1"
              (Scenario.page Scenario.fresh) (Scenario.form "old" "new-1" "new-2"))
    as (text & Hout & _ & Hmismatch).
  - right; right; right. discriminate.
  - exists text. split; [exact Hout |]. apply Hmismatch.
    intros [Hempty | [Hempty | Hempty]]; discriminate Hempty.
Defined.

(** Witness of [valid_password_form_sends_once]: a filled-in form, the
    backend accepting. *)
Lemma valid_password_form_sends_once_witness :
  fst (ProfileManagement.handleChangePassword (H := Scenario.backend_up) "access-1"
         (Scenario.page Scenario.fresh, Scenario.form "old" "new-1" "new-1")) = Return tt
  /\ requests (fst (snd (ProfileManagement.handleChangePassword (H := Scenario.backend_up)
                           "access-1"
                           (Scenario.page Scenario.fresh,
                            Scenario.form "old" "new-1" "new-1"))))
     = [mkRequest "http://127.0.0.1:8000/api/v1/accounts/auth/change-password/" "POST"
          [("Content-Type", "application/json"); ("Authorization", "Bearer access-1")]
          (Some [("old_password", "old"); ("new_password", "new-1");
                 ("new_password_confirm", "new-1")])]
  /\ ProfileManagement.saving
       (snd (snd (ProfileManagement.handleChangePassword (H := Scenario.backend_up)
                    "access-1"
                    (Scenario.page Scenario.fresh,
                     Scenario.form "old" "new-1" "new-1")))) = false.
Proof.
  destruct (valid_password_form_sends_once (H := Scenario.backend_up) "access-1"
              (Scenario.page Scenario.fresh) (Scenario.form "old" "new-1" "new-1"))
    as (Hret & Hworld & Hsaving & _); try discriminate; try reflexivity.
  split; [exact Hret |]. split; [| exact Hsaving].
  rewrite Hworld. reflexivity.
Defined.

(** ** What a call leaves in the store *)

Section AfterTheCall.

Context `{Env}.
Import AuthService.

Lemma purged_not_authenticated (now : Z) (ls : gmap string string) :
  purged ls -> isAuthenticated now ls = false.
Proof.
  intros (Hacc & _). unfold isAuthenticated, getStoredAccessToken, Storage.getItem.
  rewrite Hacc. reflexivity.
Qed.

(** X22.  A [null] from [getValidAccessToken] always leaves the store
    signed out: [isAuthenticated] is false afterwards, at the instant of
    the call and at any other. *)
Theorem null_result_is_signed_out (now now' : Z) (w : World) :
  fst (getValidAccessToken now w) = Return None ->
  isAuthenticated now' (localStorage (snd (getValidAccessToken now w))) = false.
Proof.
  destruct (getValidAccessToken_cases now w)
    as [[Hmissing Hout] | [(a & _ & Hout) | [(_ & _ & _ & Hout)
        | (r & _ & _ & _ & _ & [(resp & Hout) | (e & Hout)])]]];
    rewrite Hout; simpl; try discriminate; intros _.
  - unfold isAuthenticated. destruct Hmissing as [Hta | Htr].
    + rewrite Hta. reflexivity.
    + rewrite Htr, andb_false_r. reflexivity.
  - apply purged_not_authenticated. apply purge_purged.
  - apply purged_not_authenticated. apply purge_purged.
Qed.

(** X23.  [getValidAccessToken] never replaces the refresh token, its
    expiry or the cached profile: after the call each of the three is what
    it was before, or is gone. *)
Theorem refresh_token_kept_or_removed (now : Z) (w : World) (k : string) :
  k = REFRESH_TOKEN \/ k = REFRESH_EXPIRES_AT \/ k = USER_DATA ->
  localStorage (snd (getValidAccessToken now w)) !! k = localStorage w !! k
  \/ localStorage (snd (getValidAccessToken now w)) !! k = None.
Proof.
  intros Hk.
  destruct (getValidAccessToken_cases now w)
    as [[_ Hout] | [(a & _ & Hout) | [(_ & _ & _ & Hout)
        | (r & _ & Hr & _ & Hrexp & [(resp & Hout) | (e & Hout)])]]];
    rewrite Hout; simpl.
  - left. reflexivity.
  - left. reflexivity.
  - right. rewrite removeUser_lookup, removeTokens_lookup.
    destruct Hk as [-> | [-> | ->]]; reflexivity.
  - left. rewrite storeTokens_lookup.
    apply expiredOrMissing_false in Hrexp as (re & Hre & _ & _).
    unfold getStoredRefreshToken, Storage.getItem in *.
    destruct Hk as [-> | [-> | ->]]; simpl.
    + symmetry. exact Hr.
    + rewrite Hre. reflexivity.
    + reflexivity.
  - right. rewrite removeUser_lookup, removeTokens_lookup.
    destruct Hk as [-> | [-> | ->]]; reflexivity.
Qed.

End AfterTheCall.

(** Witness of [null_result_is_signed_out]: the failed refresh on the
    stale store. *)
Lemma null_result_is_signed_out_witness :
  AuthService.isAuthenticated (H := IsoDate.date) Scenario.now
    (localStorage (snd (AuthService.getValidAccessToken (H := Scenario.backend_down)
                          Scenario.now (Scenario.page Scenario.stale)))) = false.
Proof.
  apply (null_result_is_signed_out (H := Scenario.backend_down) Scenario.now Scenario.now
           (Scenario.page Scenario.stale)).
  reflexivity.
Defined.

(** Witness of [refresh_token_kept_or_removed]: the refresh token across a
    successful refresh. *)
Lemma refresh_token_kept_or_removed_witness :
  localStorage (snd (AuthService.getValidAccessToken (H := Scenario.backend_up) Scenario.now
                       (Scenario.page Scenario.stale))) !! REFRESH_TOKEN
  = localStorage (Scenario.page Scenario.stale) !! REFRESH_TOKEN
  \/ localStorage (snd (AuthService.getValidAccessToken (H := Scenario.backend_up) Scenario.now
                          (Scenario.page Scenario.stale))) !! REFRESH_TOKEN = None.
Proof.
  apply (refresh_token_kept_or_removed (H := Scenario.backend_up) Scenario.now
           (Scenario.page Scenario.stale) REFRESH_TOKEN).
  left. reflexivity.
Defined.
